(** * go-okta: the Okta API client of [api.go], embedded in Rocq

    The client builds one HTTP request per [call], decodes the answer and,
    for [Groups], follows the [Link] header from page to page.  Go strings
    are byte sequences and are modelled by [string]; HTTP headers are Go
    maps from a key to the list of its values and are modelled by
    [gmap string (list string)].  The network is an explicit provider that
    answers a request knowing every request sent before it. *)

From Stdlib Require Import ZArith Ascii.
From stdpp Require Import base tactics option list gmap strings sorting.

Local Open Scope Z_scope.

(** ** Go's [strings] package, on bytes *)

Module GoStrings.

(** [strings.HasPrefix(s, pre)]. *)
Fixpoint HasPrefix (s pre : string) {struct pre} : bool :=
  match pre with
  | EmptyString => true
  | String a pre' =>
      match s with
      | EmptyString => false
      | String b s' => if decide (a = b) then HasPrefix s' pre' else false
      end
  end.

(** [contains_byte b s]: the byte [b] occurs in [s]
    ([strings.IndexByte(s, b) >= 0]). *)
Fixpoint contains_byte (b : ascii) (s : string) : bool :=
  match s with
  | EmptyString => false
  | String c s' => if decide (c = b) then true else contains_byte b s'
  end.

(** [occurs old s]: [old] is a substring of [s]
    ([strings.Contains(s, old)]). *)
Fixpoint occurs (old s : string) : bool :=
  match s with
  | EmptyString => HasPrefix s old
  | String _ s' => HasPrefix s old || occurs old s'
  end.

(** The scan of [strings.Replace(s, old, "", -1)] for a non-empty [old]:
    at each position the leftmost occurrence wins and its
    [String.length old] bytes are dropped ([skip] counts the bytes of
    the current occurrence still to be dropped). *)
Fixpoint remove_scan (old : string) (skip : nat) (s : string) : string :=
  match s with
  | EmptyString => EmptyString
  | String c s' =>
      match skip with
      | S k => remove_scan old k s'
      | O => if HasPrefix s old
             then remove_scan old (Nat.pred (String.length old)) s'
             else String c (remove_scan old 0 s')
      end
  end.

(** [Remove s old] is [strings.Replace(s, old, "", -1)].  Go returns [s]
    unchanged when [old == new], which here is the case [old = ""]. *)
Definition Remove (s old : string) : string :=
  if decide (old = "") then s else remove_scan old 0 s.

(** The scan of [strings.Split(s, sep)] for a non-empty [sep]; the head
    of the result is the piece being read. *)
Fixpoint split_scan (sep : string) (skip : nat) (s : string) : list string :=
  match s with
  | EmptyString => [EmptyString]
  | String c s' =>
      match skip with
      | S k => split_scan sep k s'
      | O => if HasPrefix s sep
             then EmptyString :: split_scan sep (Nat.pred (String.length sep)) s'
             else match split_scan sep 0 s' with
                  | p :: ps => String c p :: ps
                  | [] => [String c EmptyString]
                  end
      end
  end.

Fixpoint explode (s : string) : list string :=
  match s with
  | EmptyString => []
  | String c s' => String c EmptyString :: explode s'
  end.

(** [strings.Split(s, sep)].  With an empty separator Go cuts after each
    UTF-8 sequence; [explode] cuts after each byte, which is the same on
    ASCII text.  [api.go] only splits on [";"]. *)
Definition Split (s sep : string) : list string :=
  if decide (sep = "") then explode s else split_scan sep 0 s.

Fixpoint Join (elems : list string) (sep : string) : string :=
  match elems with
  | [] => ""
  | [e] => e
  | e :: es => e +:+ sep +:+ Join es sep
  end.

End GoStrings.

(** ** Go's [net/url]: query escaping and [Values.Encode] *)

Module GoURL.

Definition upperhex (n : N) : ascii :=
  match n with
  | 0 => "0" | 1 => "1" | 2 => "2" | 3 => "3" | 4 => "4" | 5 => "5"
  | 6 => "6" | 7 => "7" | 8 => "8" | 9 => "9" | 10 => "A" | 11 => "B"
  | 12 => "C" | 13 => "D" | 14 => "E" | _ => "F"
  end%N%char.

Definition between (lo hi c : ascii) : bool :=
  (N_of_ascii lo <=? N_of_ascii c)%N && (N_of_ascii c <=? N_of_ascii hi)%N.

Definition alphanum (c : ascii) : bool :=
  between "a" "z" c || between "A" "Z" c || between "0" "9" c.

(** [shouldEscape(c, encodeQueryComponent)]: letters, digits and the marks
    [- _ . ~] pass; the reserved bytes and everything else are escaped. *)
Definition shouldEscape (c : ascii) : bool :=
  if alphanum c then false
  else if decide (c = "-" ∨ c = "_" ∨ c = "." ∨ c = "~")%char then false
  else true.

Definition escape_byte (c : ascii) : string :=
  if shouldEscape c then
    if decide (c = " "%char) then "+"
    else String "%" (String (upperhex (N.shiftr (N_of_ascii c) 4))
                    (String (upperhex (N.land (N_of_ascii c) 15)) ""))
  else String c "".

(** [url.QueryEscape(s)]. *)
Fixpoint QueryEscape (s : string) : string :=
  match s with
  | EmptyString => EmptyString
  | String c s' => escape_byte c +:+ QueryEscape s'
  end.

(** [url.Values] is [map[string][]string]. *)
Definition Values_Add (v : gmap string (list string)) (key value : string)
  : gmap string (list string) :=
  <[key := default [] (v !! key) ++ [value]]> v.

Definition key_le (x y : string * list string) : Prop := String.le x.1 y.1.

#[export] Instance key_le_dec : RelDecision key_le.
Proof. intros x y. unfold key_le. apply _. Defined.

(** [Values.Encode()]: keys in sorted order, every value of a key as
    [key=value], both escaped, joined by [&]. *)
Definition Values_Encode (v : gmap string (list string)) : string :=
  GoStrings.Join
    (flat_map (λ kv, map (λ x, QueryEscape kv.1 +:+ "=" +:+ QueryEscape x) kv.2)
              (merge_sort key_le (map_to_list v)))
    "&".

End GoURL.

(** ** What the Go runtime and the rest of the package provide

    [api.go] uses the record types of the package ([AuthnResponse],
    [SessionResponse], [User], [Group], [AppLinks], [ErrorResponse]), whose
    declarations and JSON tags live in another file, and the standard
    library ([encoding/json], [net/http]).  They are the fields of
    [Runtime]; the client below is written once, over any of them. *)

Inductive result (A : Type) : Type :=
  | Ok (a : A)
  | Err (msg : string).
Arguments Ok {A} a.
Arguments Err {A} msg.

(** [http.Cookie], with the fields [Session] sets. *)
Record Cookie : Type := {
  Name : string;
  Value : string;
  Path : string;
  Domain : string;
  Secure : bool;
  HttpOnly : bool
}.

(** An outbound [http.Request], and an [http.Response] together with what
    [ioutil.ReadAll] made of its body. *)
Record Request : Type := {
  Method : string;
  URL : string;
  Header : gmap string (list string);
  Body : string
}.

Record HTTPResponse : Type := {
  StatusCode : Z;
  RespHeader : gmap string (list string);
  RespBody : result string
}.

(** The request values [api.go] marshals: [nil], [&AuthnRequest{...}] and
    [&SessionRequest{...}]. *)
Inductive RequestPayload : Type :=
  | NilRequest
  | AuthnRequest (Username Password : string)
  | SessionRequest (SessionToken : string).

(** A destination type of [json.Unmarshal]: how a valid document is
    decoded into a value that may already hold data.  The error, if any,
    comes with the destination as the decoder left it. *)
Class JSONDest (T : Type) : Type :=
  json_decode : string → T → T * option string.

Class Runtime : Type := {
  AuthnResponse : Type;
  SessionResponse : Type;
  UserProfile : Type;
  Group : Type;
  AppLinkList : Type;
  ErrorResponse : Type;
  (* zero values of the structs, [&T{}] and [var x T] *)
  AuthnResponse_zero : AuthnResponse;
  SessionResponse_zero : SessionResponse;
  UserProfile_zero : UserProfile;
  AppLinkList_zero : AppLinkList;
  ErrorResponse_zero : ErrorResponse;
  (* the two fields [api.go] reads *)
  ID : SessionResponse → string;
  ErrorCode : ErrorResponse → string;
  (* encoding/json *)
  json_Marshal : RequestPayload → string;
  json_Valid : string → bool;
  json_SyntaxError : string → string;
  AuthnResponse_json :: JSONDest AuthnResponse;
  SessionResponse_json :: JSONDest SessionResponse;
  UserProfile_json :: JSONDest UserProfile;
  Groups_json :: JSONDest (list Group);
  AppLinkList_json :: JSONDest AppLinkList;
  ErrorResponse_json :: JSONDest ErrorResponse;
  (* net/http *)
  NewRequest_error : string → string → option string;
  Cookie_String : Cookie → string;
  (* the provider behind [c.client.Do]: its answer to a request, given the
     requests it was sent before (oldest first) *)
  Do : list Request → Request → result HTTPResponse
}.

(** [Header.Add(key, value)]; the keys [api.go] uses are already in
    canonical MIME form. *)
Definition Header_Add (h : gmap string (list string)) (key value : string)
  : gmap string (list string) :=
  <[key := default [] (h !! key) ++ [value]]> h.

(** [Header.Values(key)]: [None] is Go's nil slice of an absent key. *)
Definition Header_Values (h : gmap string (list string)) (key : string)
  : option (list string) :=
  h !! key.

(** ** The client

    The [client] field of the Go struct is the HTTP transport; it is the
    [Do] of the runtime, the same for every client. *)

Record Client : Type := {
  org : string;
  Url : string;
  ApiToken : string;
  SessionCookie : option Cookie
}.

(** What a run leaves behind: the requests handed to the transport, oldest
    first, and the lines printed on standard output. *)
Record World : Type := {
  sent : list Request;
  stdout : list string
}.

Definition Println (w : World) (line : string) : World :=
  {| sent := sent w; stdout := stdout w ++ [line] |}.

(** The world once [req] has been handed to the transport. *)
Definition record_request (w : World) (req : Request) : World :=
  {| sent := sent w ++ [req]; stdout := stdout w |}.

Definition StatusOK : Z := 200.

Definition dquote : ascii := "034"%char.

(** The error document [{"errorCode":"E0000004"}], written with [dquote]
    for its double quotes. *)
Definition body_E0000004 : string :=
  "{" +:+ String dquote ("errorCode" +:+ String dquote (":" +:+
    String dquote ("E0000004" +:+ String dquote "}"))).

Section Okta.
Context `{RT : Runtime}.

(** [errorResponse] is an error wrapper for the okta response. *)
Record errorResponse : Type := {
  HTTPCode : Z;
  Response : ErrorResponse;
  Endpoint : string
}.

(** Go's [error] values met here: opaque library errors and
    [*errorResponse]. *)
Inductive error : Type :=
  | LibraryError (msg : string)
  | ApiError (e : errorResponse).

Definition errorResponse_Error (e : errorResponse) : string :=
  "Error hitting api endpoint " +:+ Endpoint e +:+ " " +:+ ErrorCode (Response e).

Definition NewClient (org0 : string) : Client :=
  {| org := org0; Url := "okta.com"; ApiToken := ""; SessionCookie := None |}.

(** [json.Unmarshal(data, v)]: the document is checked first and a syntax
    error, whose message [json_SyntaxError] depends on the document, leaves
    [v] untouched; only a valid document is decoded. *)
Definition json_Unmarshal {T : Type} `{JSONDest T} (data : string) (v : T)
  : T * option string :=
  if json_Valid data then json_decode data v
  else (v, Some (json_SyntaxError data)).

Definition request_url (c : Client) (endpoint : string) : string :=
  "https://" +:+ org c +:+ "." +:+ Url c +:+ "/api/v1/" +:+ endpoint.

(** Lines 140-147 of [call]: the headers put on the new request. *)
Definition request_headers (c : Client) : gmap string (list string) :=
  let h := Header_Add ∅ "Accept" "application/json" in
  let h := Header_Add h "Content-Type" "application/json" in
  let h := if decide (ApiToken c ≠ "")
           then Header_Add h "Authorization" ("SSWS " +:+ ApiToken c) else h in
  match SessionCookie c with
  | Some ck => Header_Add h "Cookie" (Cookie_String ck)
  | None => h
  end.

Definition build_request (c : Client) (endpoint method : string)
    (request : RequestPayload) : Request :=
  {| Method := method;
     URL := request_url c endpoint;
     Header := request_headers c;
     Body := json_Marshal request |}.

(** Lines 176-183 of [call]: the next-page link of a response. *)
Definition next_link (resp : HTTPResponse) : string :=
  match Header_Values (RespHeader resp) "Link" with
  | Some links =>
      if decide (length links = 2%nat) then default "" (links !! 1%nat) else ""
  | None => ""
  end.

(** [call]: the updated world and destination, then Go's two results,
    the error and the link. *)
Definition call {T : Type} `{JSONDest T} (c : Client) (w : World)
    (endpoint method : string) (request : RequestPayload) (response : T)
  : World * T * option error * string :=
  let link := "" in
  let url := request_url c endpoint in
  match NewRequest_error method url with
  | Some e => (w, response, Some (LibraryError e), link)
  | None =>
      let req := build_request c endpoint method request in
      let w1 := record_request w req in
      match Do (sent w) req with
      | Err e => (w1, response, Some (LibraryError e), link)
      | Ok resp =>
          match RespBody resp with
          | Err e => (w1, response, Some (LibraryError e), link)
          | Ok body =>
              if decide (StatusCode resp = StatusOK) then
                match json_Unmarshal body response with
                | (response1, Some e) =>
                    (w1, response1, Some (LibraryError e), link)
                | (response1, None) =>
                    (w1, response1, None, next_link resp)
                end
              else
                let errors := (json_Unmarshal body ErrorResponse_zero).1 in
                (w1, response,
                 Some (ApiError {| HTTPCode := StatusCode resp;
                                   Response := errors;
                                   Endpoint := url |}),
                 link)
          end
      end
  end.

(** [Authenticate] with okta using username and password. *)
Definition Authenticate (c : Client) (w : World) (username password : string)
  : World * AuthnResponse * option error :=
  let '(w1, response, err, _) :=
    call c w "authn" "POST" (AuthnRequest username password) AuthnResponse_zero in
  (w1, response, err).

(** [Session] takes a session token and returns a session; the ID is
    stored as a cookie on the client, which is returned updated. *)
Definition Session (c : Client) (w : World) (sessionToken : string)
  : Client * World * SessionResponse * option error :=
  let '(w1, response, err, _) :=
    call c w "sessions" "POST" (SessionRequest sessionToken) SessionResponse_zero in
  let c1 :=
    match err with
    | None =>
        {| org := org c; Url := Url c; ApiToken := ApiToken c;
           SessionCookie :=
             Some {| Name := "sid";
                     Value := ID response;
                     Path := "/";
                     Domain := org c +:+ "." +:+ Url c;
                     Secure := true;
                     HttpOnly := true |} |}
    | Some _ => c
    end in
  (c1, w1, response, err).

(** [User] takes a user id and returns data about that user. *)
Definition User (c : Client) (w : World) (userID : string)
  : World * UserProfile * option error :=
  let '(w1, response, err, _) :=
    call c w ("users/" +:+ userID) "GET" NilRequest UserProfile_zero in
  (w1, response, err).

(** Lines 102-104 of [Groups]: the next endpoint cut out of a link. *)
Definition groups_prefix (c : Client) : string :=
  "<https://" +:+ org c +:+ ".okta.com/api/v1/".

Definition rewrite_link (c : Client) (link : string) : string :=
  let parts := GoStrings.Split link ";" in
  let nextLink := GoStrings.Remove (hd "" parts) (groups_prefix c) in
  GoStrings.Remove nextLink ">".

(** One pass through the body of the [for] loop of [Groups] (lines
    93-110): either the function returns, or the loop goes round again
    with a new [nextLink] and the longer [response]. *)
Inductive Iteration : Type :=
  | Return (w : World) (groups : list Group) (err : option error)
  | Continue (w : World) (nextLink : string) (response : list Group).

Definition Groups_body (c : Client) (w : World) (nextLink : string)
    (response : list Group) : Iteration :=
  let '(w1, resp, err, link) := call c w nextLink "GET" NilRequest [] in
  match err with
  | Some e => Return w1 resp (Some e)
  | None =>
      let response := response ++ resp in
      let nextLink := rewrite_link c link in
      if decide (nextLink = "") then Return w1 response None
      else Continue (Println w1 "go next link") nextLink response
  end.

(** The [for] loop of [Groups]; [None] when [fuel] passes were not
    enough to leave it. *)
Fixpoint Groups_loop (fuel : nat) (c : Client) (w : World)
    (nextLink : string) (response : list Group)
  : option (World * list Group * option error) :=
  match fuel with
  | O => None
  | S fuel' =>
      match Groups_body c w nextLink response with
      | Return w1 groups err => Some (w1, groups, err)
      | Continue w1 nextLink1 response1 =>
          Groups_loop fuel' c w1 nextLink1 response1
      end
  end.

(** The loop state at the start of pass [n] (the first pass is pass 0),
    if the loop is still running then. *)
Fixpoint Groups_state (n : nat) (c : Client) (w : World)
    (nextLink : string) (response : list Group)
  : option (World * string * list Group) :=
  match n with
  | O => Some (w, nextLink, response)
  | S n' =>
      match Groups_body c w nextLink response with
      | Return _ _ _ => None
      | Continue w1 nextLink1 response1 =>
          Groups_state n' c w1 nextLink1 response1
      end
  end.

(** [Groups] takes a user id and returns the groups the user belongs to. *)
Definition Groups (fuel : nat) (c : Client) (w : World) (userID : string)
  : option (World * list Group * option error) :=
  let nextLink := "users/" +:+ userID +:+ "/groups?limit=200" in
  Groups_loop fuel c w nextLink [].

Definition appName_filter (appName : string) : string :=
  "appName eq " +:+ String dquote (appName +:+ String dquote "").

Definition AppLinks_endpoint (userID appName : string) : string :=
  let u := "users/" +:+ userID +:+ "/appLinks" in
  if decide (0 < String.length appName)%nat then
    let v := GoURL.Values_Add ∅ "filter" (appName_filter appName) in
    u +:+ "?" +:+ GoURL.Values_Encode v
  else u.

Definition AppLinks (c : Client) (w : World) (userID appName : string)
  : World * AppLinkList * option error :=
  let '(w1, response, err, _) :=
    call c w (AppLinks_endpoint userID appName) "GET" NilRequest AppLinkList_zero in
  (w1, response, err).

(** The exported operations as commands, to speak of "every operation";
    [run] keeps the client, the world and the error. *)
Inductive Operation : Type :=
  | OpAuthenticate (username password : string)
  | OpSession (sessionToken : string)
  | OpUser (userID : string)
  | OpGroups (userID : string)
  | OpAppLinks (userID appName : string).

Definition run (fuel : nat) (op : Operation) (c : Client) (w : World)
  : option (Client * World * option error) :=
  match op with
  | OpAuthenticate username password =>
      let '(w1, _, err) := Authenticate c w username password in Some (c, w1, err)
  | OpSession sessionToken =>
      let '(c1, w1, _, err) := Session c w sessionToken in Some (c1, w1, err)
  | OpUser userID =>
      let '(w1, _, err) := User c w userID in Some (c, w1, err)
  | OpGroups userID =>
      match Groups fuel c w userID with
      | Some (w1, _, err) => Some (c, w1, err)
      | None => None
      end
  | OpAppLinks userID appName =>
      let '(w1, _, err) := AppLinks c w userID appName in Some (c, w1, err)
  end.

(** *** Vocabulary for runs of [Groups] *)

Definition groups_request (c : Client) (endpoint : string) : Request :=
  build_request c endpoint "GET" NilRequest.

(** In world [w] the provider answers the page request for [endpoint]
    with a successful page: status 200, a body that decodes to [items],
    and the next-page link [link] in its headers. *)
Definition page_at (c : Client) (w : World) (endpoint : string)
    (items : list Group) (link : string) : Prop :=
  NewRequest_error "GET" (request_url c endpoint) = None ∧
  ∃ resp body,
    Do (sent w) (groups_request c endpoint) = Ok resp ∧
    RespBody resp = Ok body ∧
    StatusCode resp = StatusOK ∧
    json_Unmarshal body [] = (items, None) ∧
    next_link resp = link.


(** The world in which the loop asks for the page after the one it got
    for [endpoint]. *)
Definition next_world (c : Client) (w : World) (endpoint : string) : World :=
  Println (record_request w (groups_request c endpoint)) "go next link".

(** From world [w] and [endpoint] the provider serves [pages] one after
    the other, each with a link that rewrites to a non-empty next
    endpoint; the chain ends in world [w'] at [endpoint']. *)
Fixpoint follows (c : Client) (w : World) (endpoint : string)
    (pages : list (list Group * string)) (w' : World) (endpoint' : string)
  : Prop :=
  match pages with
  | [] => w' = w ∧ endpoint' = endpoint
  | (items, link) :: rest =>
      page_at c w endpoint items link ∧
      rewrite_link c link ≠ "" ∧
      follows c (next_world c w endpoint) (rewrite_link c link) rest w' endpoint'
  end.

(** The endpoints visited for [pages], starting from [first]. *)
Fixpoint page_endpoints (c : Client) (first : string)
    (pages : list (list Group * string)) : list string :=
  match pages with
  | [] => [first]
  | (_, link) :: rest => first :: page_endpoints c (rewrite_link c link) rest
  end.

(** The pass that starts in this state leaves the loop. *)
Definition exits (c : Client) (st : World * string * list Group) : Prop :=
  let '(w, nextLink, response) := st in
  match Groups_body c w nextLink response with
  | Return _ _ _ => True
  | Continue _ _ _ => False
  end.

(** Operations run one after the other on the same client. *)
Fixpoint run_all (fuel : nat) (ops : list Operation) (c : Client) (w : World)
  : option (Client * World) :=
  match ops with
  | [] => Some (c, w)
  | op :: ops' =>
      match run fuel op c w with
      | Some (c1, w1, _) => run_all fuel ops' c1 w1
      | None => None
      end
  end.

Definition is_Session (op : Operation) : bool :=
  match op with OpSession _ => true | _ => false end.

(** A next link as the provider forms it from the client's own base URL,
    with the parameters [params] that follow it in the header value. *)
Definition absolute_link (c : Client) (rest : string) : string :=
  "<" +:+ request_url c rest +:+ ">".

End Okta.

(** ** A stub provider and runtime

    A small concrete runtime to run the client on: every package type is a
    string, a document is an object or an array, the string at an odd
    position between double quotes is a value, and the provider is any
    function of the request history. *)

Module Stub.

Definition q : string := String dquote "".

Fixpoint odd_items (l : list string) : list string :=
  match l with
  | _ :: x :: l' => x :: odd_items l'
  | _ => []
  end.

(** The strings of a flat array: the odd pieces between quotes. *)
Definition array_items (body : string) : list string :=
  odd_items (GoStrings.Split body q).

(** The value of the first member of a flat object. *)
Definition first_value (body : string) : string :=
  default "" (GoStrings.Split body q !! 3%nat).

Definition valid (body : string) : bool :=
  GoStrings.HasPrefix body "{" || GoStrings.HasPrefix body "[".

(** The message of [encoding/json] for a document that starts wrong. *)
Definition syntax_error (body : string) : string :=
  match body with
  | EmptyString => "unexpected end of JSON input"
  | String a _ =>
      "invalid character '" +:+ String a "' looking for beginning of value"
  end.

Definition marshal (r : RequestPayload) : string :=
  match r with
  | NilRequest => "null"
  | AuthnRequest u p =>
      "{" +:+ q +:+ "username" +:+ q +:+ ":" +:+ q +:+ u +:+ q +:+ ","
          +:+ q +:+ "password" +:+ q +:+ ":" +:+ q +:+ p +:+ q +:+ "}"
  | SessionRequest t =>
      "{" +:+ q +:+ "sessionToken" +:+ q +:+ ":" +:+ q +:+ t +:+ q +:+ "}"
  end.

Definition cookie_string (ck : Cookie) : string :=
  Name ck +:+ "=" +:+ Value ck
    +:+ (if decide (Path ck = "") then "" else "; Path=" +:+ Path ck)
    +:+ (if decide (Domain ck = "") then "" else "; Domain=" +:+ Domain ck)
    +:+ (if HttpOnly ck then "; HttpOnly" else "")
    +:+ (if Secure ck then "; Secure" else "").

Definition object_dest : JSONDest string :=
  λ body _, (first_value body, None).

Definition array_dest : JSONDest (list string) :=
  λ body _, (array_items body, None).

Definition runtime (provider : list Request → Request → result HTTPResponse)
  : Runtime :=
  {| AuthnResponse := string;
     SessionResponse := string;
     UserProfile := string;
     Group := string;
     AppLinkList := string;
     ErrorResponse := string;
     AuthnResponse_zero := "";
     SessionResponse_zero := "";
     UserProfile_zero := "";
     AppLinkList_zero := "";
     ErrorResponse_zero := "";
     ID := λ r, r;
     ErrorCode := λ e, e;
     json_Marshal := marshal;
     json_Valid := valid;
     json_SyntaxError := syntax_error;
     AuthnResponse_json := object_dest;
     SessionResponse_json := object_dest;
     UserProfile_json := object_dest;
     Groups_json := array_dest;
     AppLinkList_json := object_dest;
     ErrorResponse_json := object_dest;
     NewRequest_error := λ _ _, None;
     Cookie_String := cookie_string;
     Do := provider |}.

(** A provider that plays a script: request number [n] gets the [n]-th
    answer, and the connection is refused once the script is over. *)
Definition scripted (script : list (result HTTPResponse))
  : list Request → Request → result HTTPResponse :=
  λ history _, nth (length history) script (Err "connection refused").

Definition answer (status : Z) (links : list string) (body : string)
  : result HTTPResponse :=
  Ok {| StatusCode := status;
        RespHeader := if decide (links = []) then ∅ else {[ "Link" := links ]};
        RespBody := Ok body |}.

Definition w0 : World := {| sent := []; stdout := [] |}.

Definition acme : Client :=
  {| org := "acme"; Url := "okta.com"; ApiToken := "tok"; SessionCookie := None |}.

Definition self_link : string := "<https://acme.okta.com/api/v1/users/u/groups>; rel=self".

Definition page (groups : list string) (next : string) : result HTTPResponse :=
  answer 200 (if decide (next = "") then [self_link] else [self_link; next])
    ("[" +:+ GoStrings.Join (map (λ g, q +:+ g +:+ q) groups) "," +:+ "]").

Definition three_pages : list (result HTTPResponse) :=
  [ page ["g1"; "g2"]
      "<https://acme.okta.com/api/v1/users/u/groups?after=g2&limit=200>; rel=next";
    page ["g3"]
      "<https://acme.okta.com/api/v1/users/u/groups?after=g3&limit=200>; rel=next";
    page ["g4"; "g5"] "" ].

(** A provider that refuses every request with status 401. *)
Definition unauthorized : list Request → Request → result HTTPResponse :=
  λ _ _, answer 401 [] body_E0000004.

(** A provider that offers a next page for ever. *)
Definition more : string :=
  "<https://acme.okta.com/api/v1/users/u/groups?after=g>; rel=next".

Definition endless : list Request → Request → result HTTPResponse :=
  λ _ _, page ["g"] more.

Definition link1 : string :=
  "<https://acme.okta.com/api/v1/users/u/groups?after=g2&limit=200>; rel=next".
Definition link2 : string :=
  "<https://acme.okta.com/api/v1/users/u/groups?after=g3&limit=200>; rel=next".

Definition session_body : string :=
  "{" +:+ q +:+ "id" +:+ q +:+ ":" +:+ q +:+ "abc" +:+ q +:+ "}".

Definition sid0 : Cookie :=
  {| Name := "sid"; Value := "old"; Path := "/"; Domain := "acme.okta.com";
     Secure := true; HttpOnly := true |}.

Definition acme_session : Client :=
  {| org := "acme"; Url := "okta.com"; ApiToken := ""; SessionCookie := Some sid0 |}.

Definition preview : Client :=
  {| org := "acme"; Url := "oktapreview.com"; ApiToken := "";
     SessionCookie := None |}.

(** A client whose [Url] carries a path that repeats the okta.com base. *)
Definition nested : Client :=
  {| org := "acme"; Url := "okta.com/api/v1/<https://acme.okta.com";
     ApiToken := ""; SessionCookie := None |}.

(** The runtimes the claims are run on. *)
Definition paged : Runtime := runtime (scripted three_pages).
Definition refusing : Runtime := runtime unauthorized.
Definition looping : Runtime := runtime endless.
Definition signing_in : Runtime :=
  runtime (scripted [answer 200 [] session_body]).

End Stub.

(** ** Further vocabulary: error messages, request shapes, unescaping *)

Section OktaMore.
Context `{RT : Runtime}.

(** [err.Error()]: a library error is known by its message, an
    [*errorResponse] formats its endpoint and code. *)
Definition error_Error (err : error) : string :=
  match err with
  | LibraryError msg => msg
  | ApiError e => errorResponse_Error e
  end.

(** The part of every request URL that comes before the endpoint. *)
Definition base_url (c : Client) : string :=
  "https://" +:+ org c +:+ "." +:+ Url c +:+ "/api/v1/".

(** The method and the request value each operation hands to [call]. *)
Definition op_method (op : Operation) : string :=
  match op with
  | OpAuthenticate _ _ | OpSession _ => "POST"
  | OpUser _ | OpGroups _ | OpAppLinks _ _ => "GET"
  end.

Definition op_payload (op : Operation) : RequestPayload :=
  match op with
  | OpAuthenticate username password => AuthnRequest username password
  | OpSession sessionToken => SessionRequest sessionToken
  | OpUser _ | OpGroups _ | OpAppLinks _ _ => NilRequest
  end.

(** The endpoint of the request an operation starts with. *)
Definition op_endpoint (op : Operation) : string :=
  match op with
  | OpAuthenticate _ _ => "authn"
  | OpSession _ => "sessions"
  | OpUser userID => "users/" +:+ userID
  | OpGroups userID => "users/" +:+ userID +:+ "/groups?limit=200"
  | OpAppLinks userID appName => AppLinks_endpoint userID appName
  end.

(** The cookie [Session] stores for a session [response]. *)
Definition session_cookie (c : Client) (response : SessionResponse) : Cookie :=
  {| Name := "sid"; Value := ID response; Path := "/";
     Domain := org c +:+ "." +:+ Url c; Secure := true; HttpOnly := true |}.

(** The same runtime with another verdict of [http.NewRequest]. *)
Definition with_NewRequest_error (check : string → string → option string)
  : Runtime :=
  {| AuthnResponse := AuthnResponse;
     SessionResponse := SessionResponse;
     UserProfile := UserProfile;
     Group := Group;
     AppLinkList := AppLinkList;
     ErrorResponse := ErrorResponse;
     AuthnResponse_zero := AuthnResponse_zero;
     SessionResponse_zero := SessionResponse_zero;
     UserProfile_zero := UserProfile_zero;
     AppLinkList_zero := AppLinkList_zero;
     ErrorResponse_zero := ErrorResponse_zero;
     ID := ID;
     ErrorCode := ErrorCode;
     json_Marshal := json_Marshal;
     json_Valid := json_Valid;
     json_SyntaxError := json_SyntaxError;
     AuthnResponse_json := AuthnResponse_json;
     SessionResponse_json := SessionResponse_json;
     UserProfile_json := UserProfile_json;
     Groups_json := Groups_json;
     AppLinkList_json := AppLinkList_json;
     ErrorResponse_json := ErrorResponse_json;
     NewRequest_error := check;
     Cookie_String := Cookie_String;
     Do := Do |}.

End OktaMore.

(** [url.QueryUnescape], the inverse the provider applies to a query. *)
Module GoURLDecode.

Definition unhex (c : ascii) : option N :=
  let n := N_of_ascii c in
  if GoURL.between "0" "9" c then Some (n - 48)%N
  else if GoURL.between "a" "f" c then Some (n - 97 + 10)%N
  else if GoURL.between "A" "F" c then Some (n - 65 + 10)%N
  else None.

Fixpoint QueryUnescape (s : string) : option string :=
  match s with
  | EmptyString => Some EmptyString
  | String c s1 =>
      if decide (c = "%"%char) then
        match s1 with
        | String a (String b s2) =>
            match unhex a, unhex b with
            | Some hi, Some lo =>
                option_map (String (ascii_of_N (hi * 16 + lo))) (QueryUnescape s2)
            | _, _ => None
            end
        | _ => None
        end
      else
        option_map (String (if decide (c = "+"%char) then " "%char else c))
                   (QueryUnescape s1)
  end.

(** The bytes that would end a query value or start another one. *)
Definition query_delimiters : list ascii :=
  ["&"; "="; "?"; "#"; "/"; " "; dquote]%char.

End GoURLDecode.

(** How [net/url] splits a raw URL: the fragment starts at the first [#],
    and the query is what follows the first [?] of the rest. *)
Module GoURLParse.





End GoURLParse.

Module StubMore.
Import Stub.

(** [http.NewRequest] as far as the stub goes: a URL with an ASCII control
    byte is refused, any other is accepted. *)
Definition is_control (a : ascii) : bool :=
  (N_of_ascii a <? 32)%N || (N_of_ascii a =? 127)%N.

Fixpoint has_control (s : string) : bool :=
  match s with
  | EmptyString => false
  | String a s' => is_control a || has_control s'
  end.

Definition strict (method url : string) : option string :=
  if has_control url then Some "net/url: invalid control character in URL"
  else None.

Definition refusing_strict : Runtime :=
  with_NewRequest_error (RT := refusing) strict.

Definition paged_strict : Runtime :=
  with_NewRequest_error (RT := paged) strict.

(** A provider that answers by the URL of the request and knows nothing
    else: 404 for any URL that is not one of its routes. *)
Definition routed (routes : gmap string (result HTTPResponse))
  : list Request → Request → result HTTPResponse :=
  λ _ req, default (answer 404 [] "{}") (routes !! URL req).

Definition url0 : string := "https://acme.okta.com/api/v1/users/u/groups?limit=200".
Definition url1 : string :=
  "https://acme.okta.com/api/v1/users/u/groups?after=g2&limit=200".
Definition url2 : string :=
  "https://acme.okta.com/api/v1/users/u/groups?after=g3&limit=200".

Definition by_url : Runtime :=
  runtime (routed (<[url0 := page ["g1"; "g2"] link1]>
                   (<[url1 := page ["g3"] link2]>
                    (<[url2 := page ["g4"; "g5"] ""]> ∅)))).

(** A second page that is not a JSON document. *)
Definition garbled : Runtime :=
  runtime (scripted [page ["g1"; "g2"] link1; answer 200 [] "oops"]).

Definition user_body : string :=
  "{" +:+ q +:+ "login" +:+ q +:+ ":" +:+ q +:+ "bob" +:+ q +:+ "}".

Definition second_session_body : string :=
  "{" +:+ q +:+ "id" +:+ q +:+ ":" +:+ q +:+ "xyz" +:+ q +:+ "}".

(** Sign in, then ask for a user. *)
Definition login : Runtime :=
  runtime (scripted [answer 200 [] session_body; answer 200 [] user_body]).

(** Sign in twice. *)
Definition relogin : Runtime :=
  runtime (scripted [answer 200 [] session_body; answer 200 [] second_session_body]).

(** One page with a single [Link] value. *)
Definition single : Runtime :=
  runtime (scripted [page ["g1"; "g2"] ""]).

Definition authn_ok : Runtime :=
  runtime (scripted [answer 200 [] user_body]).

End StubMore.

Example split_link :
  GoStrings.Split "<https://o.okta.com/api/v1/users/u/groups?after=x>; rel=next" ";"
  = ["<https://o.okta.com/api/v1/users/u/groups?after=x>"; " rel=next"].
Proof. reflexivity. Qed.

Example split_empty : GoStrings.Split "" ";" = [""].
Proof. reflexivity. Qed.

Example remove_twice : GoStrings.Remove "a>b>>c" ">" = "abc".
Proof. reflexivity. Qed.

Example remove_overlap : GoStrings.Remove "aaab" "aa" = "ab".
Proof. reflexivity. Qed.

Example escape_space_quote :
  GoURL.QueryEscape (String " " (String "034" "a/b")) = "+%22a%2Fb".
Proof. reflexivity. Qed.

Example encode_one :
  GoURL.Values_Encode (GoURL.Values_Add ∅ "filter" "a b") = "filter=a+b".
Proof. vm_compute. reflexivity. Qed.

Example stub_three_pages :
  let RT := Stub.runtime (Stub.scripted Stub.three_pages) in
  (λ r, (length (sent r.1.1), r.1.2, r.2)) <$> Groups 5 Stub.acme Stub.w0 "u"
  = Some (3%nat, ["g1"; "g2"; "g3"; "g4"; "g5"], None).
Proof. vm_compute. reflexivity. Qed.

(** ** Facts about the string functions *)

Module StringFacts.
Import GoStrings.

Lemma app_cons a (s t : string) : String a s +:+ t = String a (s +:+ t).
Proof. reflexivity. Qed.

Lemma app_nil_r (s : string) : s +:+ "" = s.
Proof. induction s as [|a s IH]; [done|]. by rewrite app_cons, IH. Qed.

Lemma app_assoc (s t u : string) : (s +:+ t) +:+ u = s +:+ t +:+ u.
Proof. induction s as [|a s IH]; [done|]. by rewrite !app_cons, IH. Qed.

Lemma prefix_cons a b (s t : string) :
  HasPrefix (String b t) (String a s)
  = if decide (a = b) then HasPrefix t s else false.
Proof. reflexivity. Qed.

Lemma prefix_app_cancel (p s t : string) :
  HasPrefix (p +:+ t) (p +:+ s) = HasPrefix t s.
Proof.
  induction p as [|a p IH]; [done|].
  rewrite !app_cons, prefix_cons. by rewrite decide_True.
Qed.

Lemma contains_byte_app b (s t : string) :
  contains_byte b (s +:+ t) = contains_byte b s || contains_byte b t.
Proof.
  induction s as [|a s IH]; [done|].
  rewrite app_cons. simpl. by destruct (decide (a = b)).
Qed.

Lemma HasPrefix_head_absent b (old s : string) :
  contains_byte b s = false → HasPrefix s (String b old) = false.
Proof.
  destruct s as [|a s]; [done|].
  rewrite prefix_cons. cbn [contains_byte].
  destruct (decide (a = b)) as [->|]; [done|]. by rewrite decide_False.
Qed.

(** A string that lacks the first byte of [old] has no occurrence of [old]. *)
Lemma occurs_head_absent b (old s : string) :
  contains_byte b s = false → occurs (String b old) s = false.
Proof.
  induction s as [|a s IH]; intros Hs.
  - by apply HasPrefix_head_absent.
  - change (occurs (String b old) (String a s))
      with (HasPrefix (String a s) (String b old) || occurs (String b old) s).
    rewrite (HasPrefix_head_absent b old (String a s) Hs). simpl.
    apply IH. simpl in Hs. by destruct (decide (a = b)).
Qed.

Lemma remove_scan_absent (old s : string) :
  occurs old s = false → remove_scan old 0 s = s.
Proof.
  induction s as [|a s IH]; [done|]. cbn [occurs remove_scan].
  intros [Hp Ho]%orb_false_iff. rewrite Hp. by rewrite IH.
Qed.

(** [strings.Replace] leaves a string without occurrence as it is. *)
Lemma Remove_absent (s old : string) : occurs old s = false → Remove s old = s.
Proof. unfold Remove. case_decide; [done|]. apply remove_scan_absent. Qed.

Lemma Remove_cons_ne a b (s : string) :
  a ≠ b → Remove (String a s) (String b "") = String a (Remove s (String b "")).
Proof.
  intros Hab. unfold Remove. rewrite !decide_False by done.
  cbn [remove_scan]. by rewrite prefix_cons, decide_False.
Qed.

(** Two names that end at their first [/] and of which one starts the
    other's text are the same name. *)
Lemma prefix_upto_slash (x u y v : string) :
  contains_byte "/" x = false → contains_byte "/" u = false →
  HasPrefix (u +:+ String "/" v) (x +:+ String "/" y) = true → x = u.
Proof.
  revert u. induction x as [|a x IH]; intros [|b u] Hx Hu Hp; try done.
  - rewrite app_cons in Hp. change ("" +:+ String "/" y) with (String "/" y) in Hp.
    rewrite prefix_cons in Hp. simpl in Hu.
    destruct (decide ("/"%char = b)) as [<-|]; [|done].
    by rewrite decide_True in Hu.
  - rewrite app_cons in Hp. change ("" +:+ String "/" v) with (String "/" v) in Hp.
    rewrite prefix_cons in Hp. simpl in Hx.
    destruct (decide (a = "/"%char)) as [->|]; done.
  - rewrite !app_cons, prefix_cons in Hp.
    simpl in Hx, Hu.
    destruct (decide (a = "/"%char)); [done|].
    destruct (decide (b = "/"%char)); [done|].
    destruct (decide (a = b)) as [->|]; [|done].
    f_equal. by apply IH.
Qed.

Lemma split_scan_nonempty (sep : string) (k : nat) (s : string) :
  split_scan sep k s ≠ [].
Proof.
  revert k. induction s as [|a s IH]; intros k; [done|]. cbn [split_scan].
  destruct k; [|apply IH].
  destruct (HasPrefix (String a s) sep); [done|].
  by destruct (split_scan sep 0 s).
Qed.

(** Index 0 of [strings.Split(s, ";")] is always in range. *)
Lemma Split_semicolon_nonempty (s : string) : Split s ";" ≠ [].
Proof. unfold Split. rewrite decide_False by done. apply split_scan_nonempty. Qed.

Lemma Split_no_semicolon (s : string) :
  contains_byte ";" s = false → Split s ";" = [s].
Proof.
  unfold Split. rewrite decide_False by done.
  induction s as [|a s IH]; [done|]. cbn [split_scan contains_byte]. intros Hs.
  destruct (decide (a = ";"%char)); [done|].
  rewrite prefix_cons, decide_False by done.
  by rewrite IH.
Qed.

Lemma Split_first_piece (a b : string) :
  contains_byte ";" a = false → hd "" (Split (a +:+ String ";" b) ";") = a.
Proof.
  unfold Split. rewrite decide_False by done.
  induction a as [|x a IH]; [intros _; reflexivity|].
  rewrite app_cons. cbn [split_scan contains_byte]. intros Ha.
  destruct (decide (x = ";"%char)); [done|].
  rewrite prefix_cons, decide_False by done.
  specialize (IH Ha).
  destruct (split_scan ";" 0 (a +:+ String ";" b)); simpl in *; by subst.
Qed.

Lemma QueryEscape_app (s t : string) :
  GoURL.QueryEscape (s +:+ t) = GoURL.QueryEscape s +:+ GoURL.QueryEscape t.
Proof.
  induction s as [|a s IH]; [done|].
  rewrite app_cons. simpl. by rewrite IH, app_assoc.
Qed.

Lemma Values_Encode_single (k v : string) :
  GoURL.Values_Encode (GoURL.Values_Add ∅ k v)
  = GoURL.QueryEscape k +:+ "=" +:+ GoURL.QueryEscape v.
Proof.
  unfold GoURL.Values_Encode, GoURL.Values_Add.
  rewrite lookup_empty. simpl. rewrite insert_empty, map_to_list_singleton.
  reflexivity.
Qed.

End StringFacts.

(** ** Facts about [call] *)

Section CallFacts.
Context `{RT : Runtime} {T : Type} `{!JSONDest T}.
Variables (c : Client) (w : World) (endpoint method : string).
Variables (request : RequestPayload) (response : T).

Let req := build_request c endpoint method request.
Let url := request_url c endpoint.

Lemma json_Unmarshal_invalid (data : string) (v : T) :
  json_Valid data = false → (json_Unmarshal data v).1 = v.
Proof. unfold json_Unmarshal. by intros ->. Qed.

Lemma call_NewRequest_fails e :
  NewRequest_error method url = Some e →
  call c w endpoint method request response
  = (w, response, Some (LibraryError e), "").
Proof. unfold call. subst url. by intros ->. Qed.


Lemma call_read_fails resp e :
  NewRequest_error method url = None →
  Do (sent w) req = Ok resp →
  RespBody resp = Err e →
  call c w endpoint method request response
  = (record_request w req, response, Some (LibraryError e), "").
Proof. unfold call. subst url req. by intros -> -> ->. Qed.

Lemma call_ok resp body response1 :
  NewRequest_error method url = None →
  Do (sent w) req = Ok resp →
  RespBody resp = Ok body →
  StatusCode resp = StatusOK →
  json_Unmarshal body response = (response1, None) →
  call c w endpoint method request response
  = (record_request w req, response1, None, next_link resp).
Proof.
  unfold call. subst url req. intros -> -> -> HS ->.
  by rewrite decide_True.
Qed.

Lemma call_decode_fails resp body response1 e :
  NewRequest_error method url = None →
  Do (sent w) req = Ok resp →
  RespBody resp = Ok body →
  StatusCode resp = StatusOK →
  json_Unmarshal body response = (response1, Some e) →
  call c w endpoint method request response
  = (record_request w req, response1, Some (LibraryError e), "").
Proof.
  unfold call. subst url req. intros -> -> -> HS ->.
  by rewrite decide_True.
Qed.

Lemma call_status_fails resp body :
  NewRequest_error method url = None →
  Do (sent w) req = Ok resp →
  RespBody resp = Ok body →
  StatusCode resp ≠ StatusOK →
  call c w endpoint method request response
  = (record_request w req, response,
     Some (ApiError {| HTTPCode := StatusCode resp;
                       Response := (json_Unmarshal body ErrorResponse_zero).1;
                       Endpoint := url |}), "").
Proof.
  unfold call. subst url req. intros -> -> -> HS.
  by rewrite decide_False.
Qed.

(** [call] hands at most one request to the transport, the one it built,
    and prints nothing. *)
Lemma call_sent :
  (call c w endpoint method request response).1.1.1
  = match NewRequest_error method url with
    | Some _ => w
    | None => record_request w req
    end.
Proof.
  unfold call. subst url req.
  destruct (NewRequest_error _ _); [done|].
  destruct (Do _ _) as [resp|]; [|done].
  destruct (RespBody resp); [|done].
  case_decide; [|done].
  by destruct (json_Unmarshal _ _) as [? []].
Qed.

End CallFacts.

(** ** Facts about the loop of [Groups] *)

Section GroupsFacts.
Context `{RT : Runtime}.
Implicit Types (c : Client) (w : World) (pages : list (list Group * string)).

Lemma Groups_body_page c w endpoint response items link :
  page_at c w endpoint items link →
  Groups_body c w endpoint response
  = if decide (rewrite_link c link = "")
    then Return (record_request w (groups_request c endpoint))
                (response ++ items) None
    else Continue (next_world c w endpoint) (rewrite_link c link)
                  (response ++ items).
Proof.
  intros (Hnew & resp & body & HDo & Hbody & Hst & Hdec & <-).
  unfold Groups_body.
  by rewrite (call_ok c w endpoint "GET" NilRequest [] resp body items).
Qed.


(** Following [pages] takes one pass of the loop per page. *)
Lemma Groups_loop_follows c pages : ∀ w endpoint w' endpoint' response fuel,
  follows c w endpoint pages w' endpoint' →
  Groups_loop (length pages + fuel) c w endpoint response
  = Groups_loop fuel c w' endpoint' (response ++ concat (map fst pages)).
Proof.
  induction pages as [|[items link] pages IH];
    intros w endpoint w' endpoint' response fuel.
  - intros [-> ->]. simpl. by rewrite app_nil_r.
  - intros (Hpage & Hnext & Hrest). cbn [length Nat.add Groups_loop].
    rewrite (Groups_body_page _ _ _ _ _ _ Hpage), decide_False by done.
    rewrite (IH _ _ _ _ _ _ Hrest). simpl. by rewrite app_assoc.
Qed.

Lemma follows_sent c pages : ∀ w endpoint w' endpoint',
  follows c w endpoint pages w' endpoint' →
  sent w' ++ [groups_request c endpoint']
  = sent w ++ map (groups_request c) (page_endpoints c endpoint pages).
Proof.
  induction pages as [|[items link] pages IH]; intros w endpoint w' endpoint'.
  - by intros [-> ->].
  - intros (_ & _ & Hrest). rewrite (IH _ _ _ _ Hrest). simpl.
    by rewrite <-app_assoc.
Qed.

Lemma page_endpoints_length c first pages :
  length (page_endpoints c first pages) = S (length pages).
Proof.
  revert first. induction pages as [|[items link] pages IH]; intros first;
    [done|]. simpl. by rewrite IH.
Qed.

Lemma Groups_body_sent c w nextLink response :
  match Groups_body c w nextLink response with
  | Return w1 _ _ => length (sent w1) ≤ S (length (sent w))
  | Continue w1 _ _ => length (sent w1) ≤ S (length (sent w))
  end%nat.
Proof.
  unfold Groups_body.
  pose proof (call_sent c w nextLink "GET" NilRequest
                ([] : list Group)) as Hs.
  destruct (call c w nextLink "GET" NilRequest []) as [[[w1 resp] err] link].
  simpl in Hs.
  assert (length (sent w1) ≤ S (length (sent w)))%nat as Hle.
  { subst w1. destruct (NewRequest_error _ _); simpl; [lia|].
    rewrite length_app. simpl. lia. }
  destruct err; [done|]. by case_decide.
Qed.

Lemma Groups_state_sent c n : ∀ w nextLink response w' nextLink' response',
  Groups_state n c w nextLink response = Some (w', nextLink', response') →
  (length (sent w') ≤ length (sent w) + n)%nat.
Proof.
  induction n as [|n IH]; intros w nextLink response w' nextLink' response'.
  - intros [= -> -> ->]. lia.
  - simpl. pose proof (Groups_body_sent c w nextLink response) as Hb.
    destruct (Groups_body c w nextLink response) as [|w1 l1 r1]; [done|].
    intros Hst%IH. lia.
Qed.

(** A run that reaches an exiting pass at step [n] returns with any fuel
    above [n]. *)
Lemma Groups_loop_exits c n : ∀ w nextLink response st,
  Groups_state n c w nextLink response = Some st →
  exits c st →
  ∃ res,
    (∀ fuel, (n < fuel)%nat →
             Groups_loop fuel c w nextLink response = Some res) ∧
    (length (sent res.1.1) ≤ length (sent w) + S n)%nat.
Proof.
  induction n as [|n IH]; intros w nextLink response st.
  - intros [= <-]. unfold exits.
    pose proof (Groups_body_sent c w nextLink response) as Hb.
    destruct (Groups_body c w nextLink response) as [w1 gs err|] eqn:Hbody;
      [intros _|done].
    exists (w1, gs, err). split; [|simpl; lia].
    intros [|fuel] ?; [lia|]. simpl. by rewrite Hbody.
  - simpl. pose proof (Groups_body_sent c w nextLink response) as Hb.
    destruct (Groups_body c w nextLink response) as [|w1 l1 r1] eqn:Hbody;
      [done|].
    intros Hst Hex. destruct (IH _ _ _ _ Hst Hex) as (res & Hres & Hlen).
    exists res. split; [|lia].
    intros [|fuel] ?; [lia|]. simpl. rewrite Hbody. apply Hres. lia.
Qed.

(** Conversely a run that returns did reach an exiting pass. *)
Lemma Groups_loop_returns c fuel : ∀ w nextLink response res,
  Groups_loop fuel c w nextLink response = Some res →
  ∃ n st, (n < fuel)%nat ∧
          Groups_state n c w nextLink response = Some st ∧ exits c st.
Proof.
  induction fuel as [|fuel IH]; intros w nextLink response res; [done|].
  simpl.
  destruct (Groups_body c w nextLink response) as [w1 gs err|w1 l1 r1] eqn:Hbody.
  - intros _. exists 0%nat, (w, nextLink, response).
    split; [lia|]. split; [done|]. unfold exits. by rewrite Hbody.
  - intros (n & st & Hn & Hst & Hex)%IH.
    exists (S n), st. split; [lia|]. split; [|done].
    simpl. by rewrite Hbody.
Qed.

(** With a provider that always has a next page no amount of fuel is
    enough. *)
Lemma Groups_loop_endless c :
  (∀ w endpoint, ∃ items link,
      page_at c w endpoint items link ∧ rewrite_link c link ≠ "") →
  ∀ fuel w nextLink response, Groups_loop fuel c w nextLink response = None.
Proof.
  intros Hmore. induction fuel as [|fuel IH]; intros w nextLink response;
    [done|].
  destruct (Hmore w nextLink) as (items & link & Hpage & Hnext).
  simpl. rewrite (Groups_body_page _ _ _ _ _ _ Hpage), decide_False by done.
  apply IH.
Qed.

End GroupsFacts.

(** ** The claims about [Groups] *)

Section GroupsClaims.
Context `{RT : Runtime}.
Implicit Types (c : Client) (w : World) (pages : list (list Group * string)).


(** C10. A pass of the loop leaves it exactly when its call returns an
    error or the rewritten next link is empty.  So a run that reaches
    such a pass at step [n] returns, with any fuel above [n] and after at
    most [n + 1] requests; a run that returns did reach such a pass; and
    against a provider that always answers with a page whose link
    rewrites to a non-empty endpoint, [Groups] returns with no fuel at
    all. *)
Theorem Groups_returns_iff_exit c w userID :
  let first := "users/" +:+ userID +:+ "/groups?limit=200" in
  (∀ w1 nextLink response,
     exits c (w1, nextLink, response) ↔
     (call c w1 nextLink "GET" NilRequest ([] : list Group)).1.2 ≠ None ∨
     rewrite_link c (call c w1 nextLink "GET" NilRequest ([] : list Group)).2 = "") ∧
  (∀ n st,
     Groups_state n c w first [] = Some st → exits c st →
     ∃ res, (∀ fuel, (n < fuel)%nat → Groups fuel c w userID = Some res) ∧
            (length (sent res.1.1) ≤ length (sent w) + S n)%nat) ∧
  (∀ fuel res,
     Groups fuel c w userID = Some res →
     ∃ n st, (n < fuel)%nat ∧
             Groups_state n c w first [] = Some st ∧ exits c st) ∧
  ((∀ w1 endpoint, ∃ items link,
       page_at c w1 endpoint items link ∧ rewrite_link c link ≠ "") →
   ∀ fuel, Groups fuel c w userID = None).
Proof.
  intros first. split; [|split; [|split]].
  - intros w1 nextLink response. unfold exits, Groups_body.
    destruct (call c w1 nextLink "GET" NilRequest []) as [[[w2 resp] err] link].
    simpl. destruct err.
    + split; [by left|done].
    + case_decide; [split; [by right|done]|].
      split; [done|]. by intros [|].
  - intros n st. unfold Groups. apply Groups_loop_exits.
  - intros fuel res. unfold Groups. apply Groups_loop_returns.
  - intros Hmore fuel. by apply Groups_loop_endless.
Qed.

End GroupsClaims.

(** ** Facts about the requests the operations send *)

Section RequestFacts.
Context `{RT : Runtime}.
Implicit Types (c : Client) (w : World).

Lemma request_headers_Accept c :
  request_headers c !! "Accept" = Some ["application/json"].
Proof.
  unfold request_headers, Header_Add.
  destruct (SessionCookie c); case_decide; by simplify_map_eq.
Qed.

Lemma request_headers_Content_Type c :
  request_headers c !! "Content-Type" = Some ["application/json"].
Proof.
  unfold request_headers, Header_Add.
  destruct (SessionCookie c); case_decide; by simplify_map_eq.
Qed.

Lemma request_headers_Authorization c :
  request_headers c !! "Authorization"
  = if decide (ApiToken c = "") then None else Some ["SSWS " +:+ ApiToken c].
Proof.
  unfold request_headers, Header_Add.
  destruct (SessionCookie c); repeat case_decide; by simplify_map_eq.
Qed.

Lemma request_headers_Cookie c :
  request_headers c !! "Cookie"
  = match SessionCookie c with
    | Some ck => Some [Cookie_String ck]
    | None => None
    end.
Proof.
  unfold request_headers, Header_Add.
  destruct (SessionCookie c); case_decide; by simplify_map_eq.
Qed.

(** What a [call] without error went through. *)
Lemma call_no_error {T : Type} `{!JSONDest T} c w endpoint method request
    (response : T) w1 response1 link :
  call c w endpoint method request response = (w1, response1, None, link) →
  NewRequest_error method (request_url c endpoint) = None ∧
  w1 = record_request w (build_request c endpoint method request) ∧
  ∃ resp body,
    Do (sent w) (build_request c endpoint method request) = Ok resp ∧
    RespBody resp = Ok body ∧
    StatusCode resp = StatusOK ∧
    json_Unmarshal body response = (response1, None) ∧
    link = next_link resp.
Proof.
  unfold call.
  destruct (NewRequest_error _ _); [done|].
  destruct (Do _ _) as [resp|] eqn:HDo; [|done].
  destruct (RespBody resp) as [body|] eqn:Hbody; [|done].
  case_decide as Hst; [|done].
  destruct (json_Unmarshal body response) as [r1 [e|]] eqn:Hdec; [done|].
  intros [= <- <- <-]. split; [done|]. split; [done|].
  by exists resp, body.
Qed.

(** Every request [call] sends carries the headers of the client. *)
Lemma call_sent_headers {T : Type} `{!JSONDest T} c w endpoint method request
    (response : T) :
  ∃ new,
    sent (call c w endpoint method request response).1.1.1 = sent w ++ new ∧
    (length new ≤ 1)%nat ∧
    Forall (λ r, Header r = request_headers c) new.
Proof.
  rewrite call_sent. destruct (NewRequest_error _ _).
  - exists []. rewrite app_nil_r. split; [done|]. split; [simpl; lia|constructor].
  - exists [build_request c endpoint method request]. simpl.
    split; [done|]. split; [lia|]. by constructor.
Qed.

Lemma Groups_loop_sent_headers c fuel : ∀ w nextLink response w' groups err,
  Groups_loop fuel c w nextLink response = Some (w', groups, err) →
  ∃ new, sent w' = sent w ++ new ∧
         Forall (λ r, Header r = request_headers c) new.
Proof.
  induction fuel as [|fuel IH]; intros w nextLink response w' groups err;
    [done|].
  simpl. unfold Groups_body.
  destruct (call_sent_headers c w nextLink "GET" NilRequest ([] : list Group))
    as (new & Hnew & _ & Hall).
  destruct (call c w nextLink "GET" NilRequest []) as [[[w1 resp] e] link].
  simpl in Hnew. destruct e.
  { intros [= <- <- <-]. by exists new. }
  case_decide.
  { intros [= <- <- <-]. by exists new. }
  intros (new' & Hnew' & Hall')%IH. simpl in Hnew'.
  exists (new ++ new'). rewrite Hnew', Hnew, app_assoc.
  split; [done|]. by apply Forall_app.
Qed.

(** Every request an operation sends carries the headers of the client
    it was called on, and only a successful [Session] changes the
    client. *)
Lemma run_sent_headers fuel op c w c' w' err :
  run fuel op c w = Some (c', w', err) →
  (∃ new, sent w' = sent w ++ new ∧
          Forall (λ r, Header r = request_headers c) new) ∧
  (c' = c ∨ (is_Session op = true ∧ err = None)).
Proof.
  destruct op as [u p|tok|uid|uid|uid app]; simpl.
  - unfold Authenticate.
    destruct (call_sent_headers c w "authn" "POST" (AuthnRequest u p)
                AuthnResponse_zero) as (new & Hnew & _ & Hall).
    destruct (call c w "authn" "POST" _ _) as [[[w1 r] e] l].
    intros [= <- <- <-]. split; [by exists new|by left].
  - unfold Session.
    destruct (call_sent_headers c w "sessions" "POST" (SessionRequest tok)
                SessionResponse_zero) as (new & Hnew & _ & Hall).
    destruct (call c w "sessions" "POST" _ _) as [[[w1 r] e] l].
    intros [= <- <- <-]. split; [by exists new|].
    destruct e; [by left|by right].
  - unfold User.
    destruct (call_sent_headers c w ("users/" +:+ uid) "GET" NilRequest
                UserProfile_zero) as (new & Hnew & _ & Hall).
    destruct (call c w ("users/" +:+ uid) "GET" _ _) as [[[w1 r] e] l].
    intros [= <- <- <-]. split; [by exists new|by left].
  - unfold Groups.
    destruct (Groups_loop fuel c w _ []) as [[[w1 gs] e]|] eqn:Hloop; [|done].
    intros [= <- <- <-]. split; [|by left].
    by apply Groups_loop_sent_headers in Hloop.
  - unfold AppLinks.
    destruct (call_sent_headers c w (AppLinks_endpoint uid app) "GET" NilRequest
                AppLinkList_zero) as (new & Hnew & _ & Hall).
    destruct (call c w (AppLinks_endpoint uid app) "GET" _ _) as [[[w1 r] e] l].
    intros [= <- <- <-]. split; [by exists new|by left].
Qed.

Lemma run_all_sent_headers fuel ops : ∀ c w c' w',
  Forall (λ op, is_Session op = false) ops →
  run_all fuel ops c w = Some (c', w') →
  c' = c ∧
  ∃ new, sent w' = sent w ++ new ∧
         Forall (λ r, Header r = request_headers c) new.
Proof.
  induction ops as [|op ops IH]; intros c w c' w' Hops.
  - intros [= <- <-]. split; [done|]. exists []. by rewrite app_nil_r.
  - apply Forall_cons in Hops as [Hop Hops]. simpl.
    destruct (run fuel op c w) as [[[c1 w1] e]|] eqn:Hrun; [|done].
    apply run_sent_headers in Hrun as [(new & Hnew & Hall) [->|[Hs _]]];
      [|congruence].
    intros (-> & new' & Hnew' & Hall')%IH; [|done].
    split; [done|]. exists (new ++ new').
    rewrite Hnew', Hnew, app_assoc. split; [done|]. by apply Forall_app.
Qed.

End RequestFacts.

(** ** The claims about [call] and the single-request operations *)

Section CallClaims.
Context `{RT : Runtime}.
Implicit Types (c : Client) (w : World).

Lemma run_status_error fuel op c w resp body :
  let req := build_request c (op_endpoint op) (op_method op) (op_payload op) in
  NewRequest_error (op_method op) (request_url c (op_endpoint op)) = None →
  Do (sent w) req = Ok resp →
  RespBody resp = Ok body →
  StatusCode resp ≠ StatusOK →
  run (S fuel) op c w
  = Some (c, record_request w req,
          Some (ApiError {| HTTPCode := StatusCode resp;
                            Response := (json_Unmarshal body ErrorResponse_zero).1;
                            Endpoint := request_url c (op_endpoint op) |})).
Proof.
  intros req Hnew HDo Hbody Hst. subst req.
  destruct op as [u p|tok|uid|uid|uid app]; simpl in *.
  - unfold Authenticate.
    by rewrite (call_status_fails _ _ _ _ _ _ resp body).
  - unfold Session.
    by rewrite (call_status_fails _ _ _ _ _ _ resp body).
  - unfold User.
    by rewrite (call_status_fails _ _ _ _ _ _ resp body).
  - unfold Groups. cbn [Groups_loop]. unfold Groups_body.
    by rewrite (call_status_fails _ _ _ _ _ _ resp body).
  - unfold AppLinks.
    by rewrite (call_status_fails _ _ _ _ _ _ resp body).
Qed.

(** C3. A response with a status other than 200 makes [call] return an
    [errorResponse] with exactly that status, the payload
    [json.Unmarshal] left from the body (the zero payload when the body
    is not a JSON document; the decoder's own error is dropped) and the
    full request URL.  And whichever operation is run, when the request
    it starts with is answered by status 401 with the body
    [{"errorCode":"E0000004"}], which the package decodes to the code
    [E0000004], the operation returns an error with status 401, that
    code and the URL of that request, after that one request and with
    the client as it was. *)
Theorem call_status_error :
  (∀ (T : Type) (D : JSONDest T) c w endpoint method request (response : T)
     resp body,
     NewRequest_error method (request_url c endpoint) = None →
     Do (sent w) (build_request c endpoint method request) = Ok resp →
     RespBody resp = Ok body →
     StatusCode resp ≠ StatusOK →
     ∃ e,
       call c w endpoint method request response
       = (record_request w (build_request c endpoint method request),
          response, Some (ApiError e), "") ∧
       HTTPCode e = StatusCode resp ∧
       Response e = (json_Unmarshal body ErrorResponse_zero).1 ∧
       (json_Valid body = false → Response e = ErrorResponse_zero) ∧
       Endpoint e
       = "https://" +:+ org c +:+ "." +:+ Url c +:+ "/api/v1/" +:+ endpoint) ∧
  (∀ op fuel c w resp,
     let req := build_request c (op_endpoint op) (op_method op) (op_payload op) in
     NewRequest_error (op_method op) (request_url c (op_endpoint op)) = None →
     Do (sent w) req = Ok resp →
     StatusCode resp = 401 →
     RespBody resp = Ok body_E0000004 →
     ErrorCode (json_Unmarshal body_E0000004 ErrorResponse_zero).1 = "E0000004" →
     ∃ e,
       run (S fuel) op c w = Some (c, record_request w req, Some (ApiError e)) ∧
       HTTPCode e = 401 ∧
       ErrorCode (Response e) = "E0000004" ∧
       Endpoint e
       = "https://" +:+ org c +:+ "." +:+ Url c +:+ "/api/v1/" +:+ op_endpoint op).
Proof.
  split.
  - intros T D c w endpoint method request response resp body
      Hnew HDo Hbody Hst.
    eexists. split; [by apply (call_status_fails _ _ _ _ _ _ resp body)|].
    simpl. split; [done|]. split; [done|].
    split; [apply json_Unmarshal_invalid|done].
  - intros op fuel c w resp req Hnew HDo Hst Hbody Hcode.
    eexists. split.
    + apply (run_status_error fuel op c w resp body_E0000004); try done.
      rewrite Hst. discriminate.
    + simpl. by rewrite Hst.
Qed.

(** C5. For a response with status 200 whose body decodes, the link
    [call] returns is the second value of the [Link] header when the
    header has exactly two values, and the empty string for any other
    number of values. *)
Theorem call_next_link (T : Type) (D : JSONDest T) c w endpoint method
    request (response : T) resp body response1 :
  NewRequest_error method (request_url c endpoint) = None →
  Do (sent w) (build_request c endpoint method request) = Ok resp →
  RespBody resp = Ok body →
  StatusCode resp = StatusOK →
  json_Unmarshal body response = (response1, None) →
  let links := default [] (RespHeader resp !! "Link") in
  let link := (call c w endpoint method request response).2 in
  (call c w endpoint method request response).1.2 = None ∧
  (∀ l1 l2, links = [l1; l2] → link = l2) ∧
  (length links ≠ 2%nat → link = "").
Proof.
  intros Hnew HDo Hbody Hst Hdec links link. subst link.
  rewrite (call_ok _ _ _ _ _ _ resp body response1) by done.
  simpl. unfold next_link, Header_Values. subst links.
  split; [done|].
  destruct (RespHeader resp !! "Link") as [ls|]; simpl.
  - split.
    + by intros l1 l2 ->.
    + intros Hlen. by rewrite decide_False.
  - split; [by intros l1 l2 [=]|done].
Qed.

(** C6. Every request [call] builds has [Accept] and [Content-Type] set
    to [application/json], an [Authorization: SSWS <token>] header
    exactly when the API token is not empty, and a [Cookie] header with
    the stored session cookie exactly when one is set; [call] sends no
    other request than the one it builds.  So a client whose session
    cookie is set attaches it to every request of every operation, and
    through any sequence of operations that does not run [Session]
    again. *)
Theorem outbound_request_headers c :
  (∀ endpoint method request,
     let h := Header (build_request c endpoint method request) in
     h !! "Accept" = Some ["application/json"] ∧
     h !! "Content-Type" = Some ["application/json"] ∧
     h !! "Authorization"
     = (if decide (ApiToken c = "") then None
        else Some ["SSWS " +:+ ApiToken c]) ∧
     h !! "Cookie"
     = match SessionCookie c with
       | Some ck => Some [Cookie_String ck]
       | None => None
       end) ∧
  (∀ (T : Type) (D : JSONDest T) w endpoint method request (response : T),
     let w1 := (call c w endpoint method request response).1.1.1 in
     w1 = w ∨
     w1 = record_request w (build_request c endpoint method request)) ∧
  (∀ ck fuel op w c' w' err,
     SessionCookie c = Some ck →
     run fuel op c w = Some (c', w', err) →
     ∃ new, sent w' = sent w ++ new ∧
            Forall (λ r, Header r !! "Cookie" = Some [Cookie_String ck]) new) ∧
  (∀ ck fuel ops w c' w',
     SessionCookie c = Some ck →
     Forall (λ op, is_Session op = false) ops →
     run_all fuel ops c w = Some (c', w') →
     SessionCookie c' = Some ck ∧
     ∃ new, sent w' = sent w ++ new ∧
            Forall (λ r, Header r !! "Cookie" = Some [Cookie_String ck]) new).
Proof.
  assert (∀ ck new, SessionCookie c = Some ck →
            Forall (λ r, Header r = request_headers c) new →
            Forall (λ r, Header r !! "Cookie" = Some [Cookie_String ck]) new)
    as Hcookie.
  { intros ck new Hck Hall. eapply Forall_impl; [exact Hall|].
    intros r ->. by rewrite request_headers_Cookie, Hck. }
  split; [|split; [|split]].
  - intros endpoint method request. simpl.
    rewrite request_headers_Accept, request_headers_Content_Type,
      request_headers_Authorization, request_headers_Cookie. done.
  - intros T D w endpoint method request response. simpl.
    rewrite call_sent. destruct (NewRequest_error _ _); [by left|by right].
  - intros ck fuel op w c' w' err Hck Hrun.
    apply run_sent_headers in Hrun as [(new & Hnew & Hall) _].
    exists new. split; [done|]. by apply Hcookie.
  - intros ck fuel ops w c' w' Hck Hops Hrun.
    apply run_all_sent_headers in Hrun as (-> & new & Hnew & Hall); [|done].
    split; [done|]. exists new. split; [done|]. by apply Hcookie.
Qed.

(** C4. When [Session] succeeds the client holds a cookie named [sid]
    whose value is the [ID] of the session decoded from the response,
    with path [/], the domain [org.Url], secure and http-only; and every
    request the client builds from then on, which is the one a later
    [call] sends, has as its [Cookie] header the string of that cookie. *)
Theorem Session_stores_cookie c w sessionToken c1 w1 response :
  Session c w sessionToken = (c1, w1, response, None) →
  let ck := {| Name := "sid"; Value := ID response; Path := "/";
               Domain := org c +:+ "." +:+ Url c;
               Secure := true; HttpOnly := true |} in
  SessionCookie c1 = Some ck ∧
  org c1 = org c ∧ Url c1 = Url c ∧ ApiToken c1 = ApiToken c ∧
  (∃ resp body,
     Do (sent w) (build_request c "sessions" "POST" (SessionRequest sessionToken))
     = Ok resp ∧
     RespBody resp = Ok body ∧
     StatusCode resp = StatusOK ∧
     json_Unmarshal body SessionResponse_zero = (response, None)) ∧
  (∀ endpoint method request,
     Header (build_request c1 endpoint method request) !! "Cookie"
     = Some [Cookie_String ck]) ∧
  (∀ (T : Type) (D : JSONDest T) w2 endpoint method request (dest : T),
     NewRequest_error method (request_url c1 endpoint) = None →
     sent (call c1 w2 endpoint method request dest).1.1.1
     = sent w2 ++ [build_request c1 endpoint method request]).
Proof.
  unfold Session.
  destruct (call c w "sessions" "POST" (SessionRequest sessionToken)
              SessionResponse_zero) as [[[w' r] e] l] eqn:Hcall.
  intros [= <- <- <- ->]. simpl.
  apply call_no_error in Hcall
    as (Hnew & -> & resp & body & HDo & Hbody & Hst & Hdec & _).
  repeat split; try done.
  - by exists resp, body.
  - intros endpoint method request. simpl.
    by rewrite request_headers_Cookie.
  - intros T D w2 endpoint method request dest Hnew2.
    by rewrite call_sent, Hnew2.
Qed.

(** C8. When [Session] returns an error the client is left as it was:
    its [SessionCookie] is the one it had before the call, set or not. *)
Theorem Session_error_keeps_cookie c w sessionToken c1 w1 response e :
  Session c w sessionToken = (c1, w1, response, Some e) →
  SessionCookie c1 = SessionCookie c ∧ c1 = c.
Proof.
  unfold Session.
  destruct (call c w "sessions" "POST" (SessionRequest sessionToken)
              SessionResponse_zero) as [[[w' r] e'] l].
  destruct e' as [e'|]; [|done]. by intros [= <- <- <- <-].
Qed.

End CallClaims.

(** ** The claims about [AppLinks] and the link rewriting *)

Section LinkFacts.
Import GoStrings StringFacts.

Lemma remove_byte_app b (s t : string) :
  Remove (s +:+ t) (String b "") = Remove s (String b "") +:+ Remove t (String b "").
Proof.
  unfold Remove. rewrite !decide_False by done.
  induction s as [|a s IH]; [done|].
  rewrite app_cons. cbn [remove_scan String.length Nat.pred].
  rewrite !prefix_cons. destruct (decide (b = a)); [done|].
  by rewrite app_cons, IH.
Qed.

Lemma remove_byte_absent b (s : string) :
  contains_byte b s = false → Remove s (String b "") = s.
Proof.
  intros Hs. apply Remove_absent. by apply occurs_head_absent.
Qed.

Lemma QueryEscape_filter (appName : string) :
  GoURL.QueryEscape (appName_filter appName)
  = "appName+eq+%22" +:+ GoURL.QueryEscape appName +:+ "%22".
Proof.
  unfold appName_filter.
  change (String dquote (appName +:+ String dquote ""))
    with (String dquote "" +:+ appName +:+ String dquote "").
  rewrite !QueryEscape_app.
  change (GoURL.QueryEscape "appName eq ") with "appName+eq+".
  change (GoURL.QueryEscape (String dquote "")) with "%22".
  by rewrite <-!app_assoc.
Qed.

Lemma AppLinks_endpoint_eq (userID appName : string) :
  AppLinks_endpoint userID appName
  = "users/" +:+ userID +:+ "/appLinks"
      +:+ (if decide (appName = "") then ""
           else "?filter=appName+eq+%22" +:+ GoURL.QueryEscape appName +:+ "%22").
Proof.
  unfold AppLinks_endpoint. destruct appName as [|a appName].
  - simpl. by rewrite app_nil_r.
  - rewrite decide_True by (simpl; lia). rewrite decide_False by done.
    rewrite Values_Encode_single, QueryEscape_filter.
    by rewrite !app_assoc.
Qed.

(** The link prefix of [Groups] does not occur in a link formed from
    another host name. *)
Lemma groups_prefix_absent (c : Client) (rest : string) :
  Url c ≠ "okta.com" →
  contains_byte "/" (Url c) = false →
  contains_byte "<" (org c +:+ Url c +:+ rest) = false →
  occurs (groups_prefix c) (absolute_link c rest) = false.
Proof.
  intros Hurl Hslash Hlt.
  rewrite !contains_byte_app in Hlt.
  apply orb_false_iff in Hlt as [Horg [HUrl Hrest]%orb_false_iff].
  unfold groups_prefix, absolute_link, request_url.
  change ("<" +:+ ("https://" +:+ org c +:+ "." +:+ Url c +:+ "/api/v1/" +:+ rest)
            +:+ ">")
    with (String "<" (("https://" +:+ org c +:+ "." +:+ Url c +:+ "/api/v1/" +:+ rest)
            +:+ ">")).
  change ("<https://" +:+ org c +:+ ".okta.com/api/v1/")
    with (String "<" ("https://" +:+ org c +:+ ".okta.com/api/v1/")).
  cbn [occurs]. apply orb_false_iff. split.
  - rewrite prefix_cons, decide_True by done.
    rewrite !app_assoc.
    change ("https://" +:+ org c +:+ ".okta.com/api/v1/")
      with ("https://" +:+ org c +:+ "." +:+ "okta.com" +:+ String "/" "api/v1/").
    change ("/api/v1/" +:+ rest +:+ ">") with (String "/" ("api/v1/" +:+ rest +:+ ">")).
    rewrite <-!(app_assoc "https://"), <-!(app_assoc ("https://" +:+ org c)).
    rewrite prefix_app_cancel.
    destruct (HasPrefix _ _) eqn:Hp; [|done].
    apply prefix_upto_slash in Hp; [congruence|done..].
  - apply occurs_head_absent.
    rewrite !contains_byte_app, Horg, HUrl, Hrest. reflexivity.
Qed.

End LinkFacts.


(** C9, as the claim words it, fails.  The [Url] of [Stub.nested] is not
    [okta.com], yet the link formed from its own base URL is cut down to
    the relative endpoint.  And for [Stub.preview], whose [Url] is the host
    name [oktapreview.com], a link with a [;] in its query loses more than
    its [>]. *)
Lemma rewrite_link_strips_other_Url :
  (Url Stub.nested ≠ "okta.com" ∧
   rewrite_link Stub.nested (absolute_link Stub.nested "users/u/groups?after=g2")
   = "users/u/groups?after=g2" ∧
   rewrite_link Stub.nested (absolute_link Stub.nested "users/u/groups?after=g2")
   ≠ GoStrings.Remove (absolute_link Stub.nested "users/u/groups?after=g2") ">") ∧
  (Url Stub.preview ≠ "okta.com" ∧
   rewrite_link Stub.preview (absolute_link Stub.preview "users/u/groups?after=a;b")
   = "<https://acme.oktapreview.com/api/v1/users/u/groups?after=a" ∧
   rewrite_link Stub.preview (absolute_link Stub.preview "users/u/groups?after=a;b")
   ≠ GoStrings.Remove (absolute_link Stub.preview "users/u/groups?after=a;b") ">").
Proof. vm_compute. by repeat split. Qed.

(** C9, amended. The prefix [Groups] strips is
    [<https://{org}.okta.com/api/v1/], whatever the client's [Url].  For a
    client whose [Url] is not [okta.com] and is a host name (it has no
    [/]), when neither the org, the [Url] nor the rest of the link has a
    [<] or a [;], a next link formed from the client's own base URL,
    followed or not by parameters after a [;], is not cut down to a
    relative endpoint: only its [>] are removed, and it still starts with
    [<https://]. *)
Theorem rewrite_link_other_domain (c : Client) (rest params : string) :
  Url c ≠ "okta.com" →
  GoStrings.contains_byte "/" (Url c) = false →
  GoStrings.contains_byte "<" (org c +:+ Url c +:+ rest) = false →
  GoStrings.contains_byte ";" (org c +:+ Url c +:+ rest) = false →
  params = "" ∨ GoStrings.HasPrefix params ";" = true →
  groups_prefix c = "<https://" +:+ org c +:+ ".okta.com/api/v1/" ∧
  rewrite_link c (absolute_link c rest +:+ params)
  = GoStrings.Remove (absolute_link c rest) ">" ∧
  GoStrings.Remove (absolute_link c rest) ">"
  = "<https://" +:+ GoStrings.Remove (org c +:+ "." +:+ Url c +:+ "/api/v1/" +:+ rest) ">".
Proof.
  intros Hurl Hslash Hlt Hsemi Hparams.
  split; [done|].
  assert (GoStrings.contains_byte ";" (absolute_link c rest) = false) as Hsemi'.
  { unfold absolute_link, request_url.
    rewrite !StringFacts.contains_byte_app in Hsemi.
    rewrite !StringFacts.contains_byte_app.
    apply orb_false_iff in Hsemi as [-> [-> ->]%orb_false_iff]. reflexivity. }
  assert (hd "" (GoStrings.Split (absolute_link c rest +:+ params) ";")
          = absolute_link c rest) as Hhd.
  { destruct Hparams as [->|Hp].
    - by rewrite StringFacts.app_nil_r, StringFacts.Split_no_semicolon.
    - destruct params as [|a params]; [done|].
      rewrite StringFacts.prefix_cons in Hp.
      destruct (decide (";"%char = a)) as [<-|]; [|done].
      by apply StringFacts.Split_first_piece. }
  split.
  - unfold rewrite_link. rewrite Hhd.
    by rewrite (StringFacts.Remove_absent _ _ (groups_prefix_absent c rest Hurl Hslash Hlt)).
  - unfold absolute_link, request_url.
    change ("<" +:+ ("https://" +:+ org c +:+ "." +:+ Url c +:+ "/api/v1/" +:+ rest)
              +:+ ">")
      with ("<https://" +:+ (org c +:+ "." +:+ Url c +:+ "/api/v1/" +:+ rest) +:+ ">").
    rewrite !(remove_byte_app ">"%char).
    change (GoStrings.Remove ">" ">") with "".
    change (GoStrings.Remove "<https://" ">") with "<https://".
    by rewrite StringFacts.app_nil_r.
Qed.

(** ** The claims on the stub provider *)

Section Witnesses.
Import Stub StubMore.


Lemma call_status_error_witness :
  (∃ e, @call refusing_strict string object_dest acme w0 "users/u" "GET" NilRequest ""
        = (record_request w0
             (build_request (RT := refusing_strict) acme "users/u" "GET" NilRequest),
           "", Some (ApiError e), "") ∧
        HTTPCode e = 401 ∧ Response e = "E0000004") ∧
  (∃ e,
     run (RT := refusing_strict) 1 (OpSession "tok123") acme w0
     = Some (acme,
             record_request w0
               (build_request (RT := refusing_strict) acme "sessions" "POST"
                  (SessionRequest "tok123")),
             Some (ApiError e)) ∧
     HTTPCode e = 401 ∧ ErrorCode (Response e) = "E0000004" ∧
     Endpoint e = "https://acme.okta.com/api/v1/sessions").
Proof.
  split.
  - destruct (proj1 (call_status_error (RT := refusing_strict)) string object_dest
                acme w0 "users/u" "GET" NilRequest ""
                {| StatusCode := 401; RespHeader := ∅; RespBody := Ok body_E0000004 |}
                body_E0000004)
      as (e & Hcall & Hcode & Hresp & _); [reflexivity..|vm_compute; discriminate|].
    exists e. split; [exact Hcall|]. split; [exact Hcode|].
    rewrite Hresp. vm_compute. reflexivity.
  - apply (proj2 (call_status_error (RT := refusing_strict)) (OpSession "tok123")
             0%nat acme w0
             {| StatusCode := 401; RespHeader := ∅; RespBody := Ok body_E0000004 |});
      [vm_compute; reflexivity|reflexivity|reflexivity|reflexivity
      |vm_compute; reflexivity].
Defined.

Lemma call_next_link_witness :
  (@call paged (list string) array_dest acme w0 "users/u/groups?limit=200"
     "GET" NilRequest []).2 = link1.
Proof.
  destruct (call_next_link (RT := paged) (list string) array_dest acme w0
              "users/u/groups?limit=200" "GET" NilRequest []
              {| StatusCode := 200;
                 RespHeader := {[ "Link" := [self_link; link1] ]};
                 RespBody := Ok ("[" +:+ q +:+ "g1" +:+ q +:+ "," +:+ q +:+ "g2" +:+ q +:+ "]") |}
              ("[" +:+ q +:+ "g1" +:+ q +:+ "," +:+ q +:+ "g2" +:+ q +:+ "]")
              ["g1"; "g2"])
    as (_ & Htwo & _); [reflexivity| vm_compute; reflexivity |reflexivity..| ].
  apply (Htwo self_link link1). vm_compute. reflexivity.
Defined.

Lemma Session_stores_cookie_witness :
  let c1 := (Session (RT := signing_in) acme w0 "tok123").1.1.1 in
  SessionCookie c1
  = Some {| Name := "sid"; Value := "abc"; Path := "/";
            Domain := "acme.okta.com"; Secure := true; HttpOnly := true |} ∧
  Header (build_request (RT := signing_in) c1 "users/u" "GET" NilRequest) !! "Cookie"
  = Some ["sid=abc; Path=/; Domain=acme.okta.com; HttpOnly; Secure"].
Proof.
  intros c1.
  destruct (Session_stores_cookie (RT := signing_in) acme w0 "tok123" c1
              (Session (RT := signing_in) acme w0 "tok123").1.1.2 "abc")
    as (Hck & _ & _ & _ & _ & Hhdr & _); [vm_compute; reflexivity|].
  split; [exact Hck|]. exact (Hhdr "users/u" "GET" NilRequest).
Defined.

Lemma Session_error_keeps_cookie_witness :
  SessionCookie (Session (RT := refusing) acme_session w0 "tok123").1.1.1
  = Some sid0.
Proof.
  destruct (Session_error_keeps_cookie (RT := refusing) acme_session w0 "tok123"
              (Session (RT := refusing) acme_session w0 "tok123").1.1.1
              (Session (RT := refusing) acme_session w0 "tok123").1.1.2
              ""
              (ApiError
                 (@Build_errorResponse refusing 401 "E0000004"
                    "https://acme.okta.com/api/v1/sessions")))
    as [Hck _]; [vm_compute; reflexivity|].
  rewrite Hck. reflexivity.
Defined.

Lemma outbound_request_headers_witness :
  match run (RT := paged) 5 (OpGroups "u") acme_session w0 with
  | Some (_, w', _) =>
      ∃ new, sent w' = sent w0 ++ new ∧
             Forall (λ r, Header r !! "Cookie" = Some [cookie_string sid0]) new
  | None => False
  end.
Proof.
  destruct (run (RT := paged) 5 (OpGroups "u") acme_session w0)
    as [[[c' w'] err]|] eqn:Hrun; [|vm_compute in Hrun; discriminate].
  exact (proj1 (proj2 (proj2 (outbound_request_headers (RT := paged) acme_session)))
           sid0 5%nat (OpGroups "u") w0 c' w' err eq_refl Hrun).
Defined.

Lemma rewrite_link_other_domain_witness :
  rewrite_link preview (absolute_link preview "users/u/groups?after=g2" +:+ "; rel=next")
  = "<https://acme.oktapreview.com/api/v1/users/u/groups?after=g2".
Proof.
  destruct (rewrite_link_other_domain preview "users/u/groups?after=g2" "; rel=next")
    as (_ & Hkept & Habs);
    [vm_compute; discriminate|reflexivity|reflexivity|reflexivity
    |right; reflexivity|].
  rewrite Hkept, Habs. vm_compute. reflexivity.
Defined.

Lemma Groups_returns_iff_exit_witness :
  (∀ fuel, Groups (RT := looping) fuel acme w0 "u" = None) ∧
  (∃ res, ∀ fuel, (2 < fuel)%nat → Groups (RT := paged) fuel acme w0 "u" = Some res).
Proof.
  split.
  - apply (proj2 (proj2 (proj2 (Groups_returns_iff_exit (RT := looping) acme w0 "u")))).
    intros w1 endpoint. exists ["g"], more.
    split; [|vm_compute; discriminate].
    split; [reflexivity|].
    eexists _, _. repeat split; vm_compute; reflexivity.
  - destruct (Groups_state (RT := paged) 2 acme w0 "users/u/groups?limit=200" [])
      as [st|] eqn:Hst; [|vm_compute in Hst; discriminate].
    destruct (proj1 (proj2 (Groups_returns_iff_exit (RT := paged) acme w0 "u"))
                2%nat st Hst) as (res & Hres & _).
    + vm_compute in Hst. injection Hst as <-. vm_compute. exact I.
    + exists res. exact Hres.
Defined.

End Witnesses.

(** ** More about the link rewriting of [Groups] *)

Section MoreLinkFacts.
Import GoStrings StringFacts.

Lemma HasPrefix_app_self (p s : string) : HasPrefix (p +:+ s) p = true.
Proof.
  induction p as [|a p IH]; [done|].
  by rewrite app_cons, prefix_cons, decide_True.
Qed.

Lemma remove_scan_skip (old p s : string) :
  remove_scan old (String.length p) (p +:+ s) = remove_scan old 0 s.
Proof. induction p as [|a p IH]; [done|]. by rewrite app_cons. Qed.

(** An occurrence at the very start is removed and the scan goes on
    behind it. *)
Lemma Remove_leading (old s : string) :
  old ≠ "" → Remove (old +:+ s) old = Remove s old.
Proof.
  intros Hold. unfold Remove. rewrite !decide_False by done.
  destruct old as [|a old]; [done|].
  rewrite app_cons. cbn [remove_scan].
  rewrite <-app_cons, HasPrefix_app_self.
  cbn [String.length Nat.pred]. apply remove_scan_skip.
Qed.

Lemma remove_scan_keeps_absent b (old : string) : ∀ (s : string) k,
  contains_byte b s = false → contains_byte b (remove_scan old k s) = false.
Proof.
  induction s as [|a s IH]; intros k; [done|].
  cbn [contains_byte remove_scan].
  destruct (decide (a = b)); [done|]. intros Hs.
  destruct k; [|by apply IH].
  destruct (HasPrefix (String a s) old); [by apply IH|].
  cbn [contains_byte]. rewrite decide_False by done. by apply IH.
Qed.

Lemma Remove_keeps_absent b (s old : string) :
  contains_byte b s = false → contains_byte b (Remove s old) = false.
Proof.
  intros Hs. unfold Remove. case_decide; [done|].
  by apply remove_scan_keeps_absent.
Qed.

Lemma Remove_byte_gone b (s : string) :
  contains_byte b (Remove s (String b "")) = false.
Proof.
  unfold Remove. rewrite decide_False by done.
  induction s as [|a s IH]; [done|].
  cbn [remove_scan String.length Nat.pred]. rewrite prefix_cons.
  destruct (decide (b = a)) as [->|]; [done|].
  cbn [contains_byte]. by rewrite decide_False.
Qed.

Lemma Split_first_no_semicolon (s : string) :
  contains_byte ";" (hd "" (Split s ";")) = false.
Proof.
  unfold Split. rewrite decide_False by done.
  induction s as [|a s IH]; [done|].
  cbn [split_scan]. rewrite prefix_cons.
  destruct (decide (";"%char = a)) as [<-|]; [done|].
  destruct (split_scan ";" 0 s) as [|p ps]; simpl in *;
    by rewrite decide_False.
Qed.

Lemma rewrite_link_okta_absolute (c : Client) (rest : string) :
  Url c = "okta.com" →
  absolute_link c rest = groups_prefix c +:+ rest +:+ ">".
Proof.
  intros HUrl. unfold absolute_link, request_url, groups_prefix. rewrite HUrl.
  change ("<" +:+ ("https://" +:+ org c +:+ "." +:+ "okta.com" +:+ "/api/v1/" +:+ rest)
            +:+ ">")
    with ("<https://" +:+ (org c +:+ ".okta.com/api/v1/" +:+ rest) +:+ ">").
  by rewrite !app_assoc.
Qed.

(** A link in the provider's form is cut down to the endpoint it names. *)
Lemma rewrite_link_provider_form (c : Client) (rest params : string) :
  Url c = "okta.com" →
  contains_byte ";" (org c +:+ rest) = false →
  contains_byte "<" rest = false →
  contains_byte ">" rest = false →
  params = "" ∨ HasPrefix params ";" = true →
  rewrite_link c (absolute_link c rest +:+ params) = rest.
Proof.
  intros HUrl Hsemi Hlt Hgt Hparams.
  rewrite contains_byte_app in Hsemi.
  apply orb_false_iff in Hsemi as [Horg Hrest].
  assert (contains_byte ";" (absolute_link c rest) = false) as Hsemi'.
  { unfold absolute_link, request_url. rewrite HUrl.
    rewrite !contains_byte_app, Horg, Hrest. reflexivity. }
  assert (hd "" (Split (absolute_link c rest +:+ params) ";")
          = absolute_link c rest) as Hhd.
  { destruct Hparams as [->|Hp].
    - by rewrite app_nil_r, Split_no_semicolon.
    - destruct params as [|a params]; [done|].
      rewrite prefix_cons in Hp.
      destruct (decide (";"%char = a)) as [<-|]; [|done].
      by apply Split_first_piece. }
  unfold rewrite_link. rewrite Hhd, (rewrite_link_okta_absolute c rest HUrl).
  rewrite Remove_leading by done.
  rewrite (Remove_absent (rest +:+ ">")).
  - rewrite (remove_byte_app ">"%char), (remove_byte_absent ">"%char rest Hgt).
    change (Remove ">" ">") with "". apply app_nil_r.
  - unfold groups_prefix.
    change ("<https://" +:+ org c +:+ ".okta.com/api/v1/")
      with (String "<" ("https://" +:+ org c +:+ ".okta.com/api/v1/")).
    apply occurs_head_absent. by rewrite contains_byte_app, Hlt.
Qed.


Lemma provider_form_absolute (c : Client) (rest params : string) :
  Url c = "okta.com" →
  "<https://" +:+ org c +:+ ".okta.com/api/v1/" +:+ rest +:+ ">" +:+ params
  = absolute_link c rest +:+ params.
Proof.
  intros HUrl. rewrite (rewrite_link_okta_absolute c rest HUrl).
  unfold groups_prefix. by rewrite !app_assoc.
Qed.

End MoreLinkFacts.

Section LinkExtras.
Import GoStrings StringFacts.

(** X1. For a client on [okta.com], a next link as the provider forms it,
    [<https://{org}.okta.com/api/v1/{rest}>] followed or not by
    parameters after a [;], is rewritten to exactly [rest], so that the
    next request goes to the URL between the angle brackets.  This needs
    [rest] to be free of [<], [>] and [;], and the org of [;]. *)
Theorem rewrite_link_okta_round_trip (c : Client) (rest params : string) :
  Url c = "okta.com" →
  contains_byte ";" (org c +:+ rest) = false →
  contains_byte "<" rest = false →
  contains_byte ">" rest = false →
  params = "" ∨ HasPrefix params ";" = true →
  rewrite_link c (absolute_link c rest +:+ params) = rest ∧
  "<" +:+ request_url c (rewrite_link c (absolute_link c rest +:+ params)) +:+ ">"
  = absolute_link c rest.
Proof.
  intros HUrl Hsemi Hlt Hgt Hparams.
  by rewrite (rewrite_link_provider_form c rest params).
Qed.

(** X2. [Groups] never reads what follows the first [;] of a link: the
    [rel] of the link, [next] or [self], makes no difference to the
    endpoint it goes to. *)
Theorem rewrite_link_ignores_params (c : Client) (link params : string) :
  contains_byte ";" link = false →
  rewrite_link c (link +:+ String ";" params) = rewrite_link c link.
Proof.
  intros Hlink. unfold rewrite_link.
  by rewrite Split_first_piece, Split_no_semicolon.
Qed.

(** X3. Whatever link the provider sends, [parts[0]] exists (the split
    never yields an empty slice, so the index cannot panic) and the
    endpoint [Groups] goes to next has neither a [;] nor a [>] in it. *)
Theorem rewrite_link_free_of_delimiters (c : Client) (link : string) :
  (∃ p ps, Split link ";" = p :: ps ∧
           rewrite_link c link = Remove (Remove p (groups_prefix c)) ">") ∧
  contains_byte ";" (rewrite_link c link) = false ∧
  contains_byte ">" (rewrite_link c link) = false.
Proof.
  split; [|split].
  - unfold rewrite_link.
    destruct (Split link ";") as [|p ps] eqn:Hsplit.
    + by apply Split_semicolon_nonempty in Hsplit.
    + by exists p, ps.
  - unfold rewrite_link. do 2 apply Remove_keeps_absent.
    apply Split_first_no_semicolon.
  - apply Remove_byte_gone.
Qed.

End LinkExtras.

(** ** More about the query of [AppLinks] *)

Section QueryFacts.
Import GoStrings StringFacts.

Lemma unescape_escape_byte (c : ascii) (t : string) :
  GoURLDecode.QueryUnescape (GoURL.escape_byte c +:+ t)
  = option_map (String c) (GoURLDecode.QueryUnescape t).
Proof. destruct c as [[] [] [] [] [] [] [] []]; reflexivity. Qed.

(** Unescaping undoes [url.QueryEscape]. *)
Lemma QueryUnescape_QueryEscape (s : string) :
  GoURLDecode.QueryUnescape (GoURL.QueryEscape s) = Some s.
Proof.
  induction s as [|c s IH]; [done|].
  cbn [GoURL.QueryEscape]. by rewrite unescape_escape_byte, IH.
Qed.

Lemma QueryEscape_inj (s t : string) :
  GoURL.QueryEscape s = GoURL.QueryEscape t → s = t.
Proof.
  intros Heq. apply (f_equal GoURLDecode.QueryUnescape) in Heq.
  rewrite !QueryUnescape_QueryEscape in Heq. congruence.
Qed.

Lemma app_byte_inj (s t : string) b :
  s +:+ String b "" = t +:+ String b "" → s = t.
Proof.
  revert t. induction s as [|a s IH]; intros [|a' t]; try done.
  - rewrite app_cons. intros [= <- Ht]. by destruct t.
  - rewrite app_cons. intros [= -> Hs]. by destruct s.
  - rewrite !app_cons. intros [= -> Hst]. f_equal. by apply IH.
Qed.

Lemma escape_byte_no_delimiter (c : ascii) :
  Forall (λ b, contains_byte b (GoURL.escape_byte c) = false) GoURLDecode.query_delimiters.
Proof.
  destruct c as [[] [] [] [] [] [] [] []];
    repeat (constructor; [reflexivity|]); constructor.
Qed.

Lemma QueryEscape_no_delimiter (s : string) :
  Forall (λ b, contains_byte b (GoURL.QueryEscape s) = false) GoURLDecode.query_delimiters.
Proof.
  induction s as [|c s IH]; [by repeat constructor|].
  cbn [GoURL.QueryEscape].
  pose proof (escape_byte_no_delimiter c) as Hc.
  rewrite Forall_forall in IH, Hc |- *. intros b Hb.
  by rewrite contains_byte_app, (Hc b Hb), (IH b Hb).
Qed.

End QueryFacts.

Section QueryExtras.
Import GoStrings StringFacts.

(** X4. The value [AppLinks] puts behind [?filter=] has none of the bytes
    [& = ? # /], no space and no double quote, whatever the app name: an
    app name cannot add a second parameter to the query or end it. *)
Theorem AppLinks_query_is_one_parameter (userID appName : string) :
  let value := "appName+eq+%22" +:+ GoURL.QueryEscape appName +:+ "%22" in
  AppLinks_endpoint userID appName
  = "users/" +:+ userID +:+ "/appLinks"
      +:+ (if decide (appName = "") then "" else "?filter=" +:+ value) ∧
  Forall (λ b, contains_byte b value = false) GoURLDecode.query_delimiters.
Proof.
  intros value. split; [by rewrite AppLinks_endpoint_eq|].
  pose proof (QueryEscape_no_delimiter appName) as Happ.
  rewrite Forall_forall in Happ |- *. intros b Hb. subst value.
  rewrite !contains_byte_app, (Happ b Hb).
  unfold GoURLDecode.query_delimiters in Hb.
  repeat (apply elem_of_cons in Hb as [->|Hb]; [reflexivity|]).
  by apply elem_of_nil in Hb.
Qed.

(** X5. Different app names give different endpoints: the escaping of the
    filter loses nothing of the name. *)
Theorem AppLinks_endpoint_inj (userID appName1 appName2 : string) :
  AppLinks_endpoint userID appName1 = AppLinks_endpoint userID appName2 →
  appName1 = appName2.
Proof.
  rewrite !AppLinks_endpoint_eq, <-!app_assoc.
  intros Heq%(inj (String.app _)).
  destruct (decide (appName1 = "")) as [->|H1],
           (decide (appName2 = "")) as [->|H2]; try done.
  apply (inj (String.app "?filter=appName+eq+%22")) in Heq.
  change "%22" with (GoURL.QueryEscape (String dquote "")) in Heq.
  rewrite <-!QueryEscape_app in Heq.
  by apply QueryEscape_inj, app_byte_inj in Heq.
Qed.

(** X18. An app name made only of letters, digits and the marks
    [- _ . ~] goes into the query as it is, between the two [%22]. *)
Theorem QueryEscape_unreserved (userID appName : string) :
  appName ≠ "" →
  (∀ b, contains_byte b appName = true → GoURL.shouldEscape b = false) →
  AppLinks_endpoint userID appName
  = "users/" +:+ userID +:+ "/appLinks?filter=appName+eq+%22" +:+ appName +:+ "%22".
Proof.
  intros Hne Hplain.
  assert (GoURL.QueryEscape appName = appName) as Hsame.
  { clear Hne. induction appName as [|a appName IH]; [done|].
    cbn [GoURL.QueryEscape]. unfold GoURL.escape_byte.
    rewrite (Hplain a) by (cbn [contains_byte]; by rewrite decide_True).
    rewrite app_cons. change ("" +:+ GoURL.QueryEscape appName)
      with (GoURL.QueryEscape appName).
    rewrite IH; [done|]. intros b Hb. apply Hplain.
    cbn [contains_byte]. by destruct (decide (a = b)). }
  rewrite AppLinks_endpoint_eq, decide_False, Hsame by done.
  reflexivity.
Qed.

End QueryExtras.

(** ** More about [call] and the operations *)

Section CallExtras.
Context `{RT : Runtime}.
Implicit Types (c : Client) (w : World).

(** X6. What an error of [call] tells the caller.  The link is empty.
    The destination is as it was given, unless the response had status
    200 and a body that is a JSON document (only then has the decoder
    run).  And an [errorResponse] means a response came back with a
    status other than 200, which is the code in the error, next to the
    full request URL. *)
Theorem call_failure_contract (T : Type) (D : JSONDest T) c w endpoint method
    request (response : T) w1 response1 e link :
  call c w endpoint method request response = (w1, response1, Some e, link) →
  let req := build_request c endpoint method request in
  link = "" ∧
  (response1 = response ∨
   ∃ resp body, Do (sent w) req = Ok resp ∧ RespBody resp = Ok body ∧
                StatusCode resp = StatusOK ∧ json_Valid body = true) ∧
  (∀ er, e = ApiError er →
     response1 = response ∧
     Endpoint er = request_url c endpoint ∧
     ∃ resp body, Do (sent w) req = Ok resp ∧ RespBody resp = Ok body ∧
                  StatusCode resp ≠ StatusOK ∧ HTTPCode er = StatusCode resp).
Proof.
  assert (∀ msg, link = "" → response1 = response → e = LibraryError msg →
    link = "" ∧
    (response1 = response ∨
     ∃ resp body,
       Do (sent w) (build_request c endpoint method request) = Ok resp ∧
       RespBody resp = Ok body ∧
       StatusCode resp = StatusOK ∧ json_Valid body = true) ∧
    (∀ er, e = ApiError er →
       response1 = response ∧
       Endpoint er = request_url c endpoint ∧
       ∃ resp body,
         Do (sent w) (build_request c endpoint method request) = Ok resp ∧
         RespBody resp = Ok body ∧
         StatusCode resp ≠ StatusOK ∧ HTTPCode er = StatusCode resp)) as Hlib.
  { intros msg -> -> ->. split; [done|]. split; [by left|]. by intros er [=]. }
  unfold call.
  destruct (NewRequest_error _ _) as [msg|].
  { intros [= <- <- <- <-]. by apply (Hlib msg). }
  destruct (Do _ _) as [resp|msg] eqn:HDo.
  2:{ intros [= <- <- <- <-]. by apply (Hlib msg). }
  destruct (RespBody resp) as [body|msg] eqn:Hbody.
  2:{ intros [= <- <- <- <-]. by apply (Hlib msg). }
  case_decide as Hst.
  - unfold json_Unmarshal. destruct (json_Valid body) eqn:Hvalid.
    + destruct (json_decode body response) as [r1 [msg|]]; [|done].
      intros [= <- <- <- <-]. split; [done|]. split; [|by intros er [=]].
      right. by exists resp, body.
    + intros [= <- <- <- <-]. by eapply Hlib.
  - intros [= <- <- <- <-]. split; [done|]. split; [by left|].
    intros er [= <-]. simpl. split; [done|]. split; [done|].
    by exists resp, body.
Qed.

(** X7. The message of the error [call] returns for a response with a
    status other than 200 is [Error hitting api endpoint], the full
    request URL and the error code of the decoded payload. *)
Theorem Error_names_url_and_code (T : Type) (D : JSONDest T) c w endpoint
    method request (response : T) resp body :
  NewRequest_error method (request_url c endpoint) = None →
  Do (sent w) (build_request c endpoint method request) = Ok resp →
  RespBody resp = Ok body →
  StatusCode resp ≠ StatusOK →
  error_Error <$> (call c w endpoint method request response).1.2
  = Some ("Error hitting api endpoint https://" +:+ org c +:+ "." +:+ Url c
            +:+ "/api/v1/" +:+ endpoint +:+ " "
            +:+ ErrorCode (json_Unmarshal body ErrorResponse_zero).1).
Proof.
  intros Hnew HDo Hbody Hst.
  rewrite (call_status_fails _ _ _ _ _ _ resp body) by done.
  simpl. unfold errorResponse_Error, request_url. simpl.
  by rewrite <-!StringFacts.app_assoc.
Qed.

(** X8. When [http.NewRequest] refuses the URL of the request an operation
    starts with, the operation returns the library's error, that very
    one, having handed nothing to the transport and printed nothing, and
    the client is as it was ([Session] stores no cookie). *)
Theorem run_unbuildable_sends_nothing fuel op c w msg :
  NewRequest_error (op_method op) (request_url c (op_endpoint op)) = Some msg →
  run (S fuel) op c w = Some (c, w, Some (LibraryError msg)).
Proof.
  intros Hnew.
  destruct op as [u p|tok|uid|uid|uid app]; simpl in *.
  - unfold Authenticate. by rewrite (call_NewRequest_fails _ _ _ _ _ _ msg).
  - unfold Session. by rewrite (call_NewRequest_fails _ _ _ _ _ _ msg).
  - unfold User. by rewrite (call_NewRequest_fails _ _ _ _ _ _ msg).
  - unfold Groups. cbn [Groups_loop]. unfold Groups_body.
    by rewrite (call_NewRequest_fails _ _ _ _ _ _ msg).
  - unfold AppLinks. by rewrite (call_NewRequest_fails _ _ _ _ _ _ msg).
Qed.

Lemma call_sent_shape {T : Type} `{!JSONDest T} c w endpoint method request
    (response : T) :
  ∃ new,
    sent (call c w endpoint method request response).1.1.1 = sent w ++ new ∧
    stdout (call c w endpoint method request response).1.1.1 = stdout w ∧
    (length new ≤ 1)%nat ∧
    Forall (λ r, ∃ e, r = build_request c e method request) new.
Proof.
  rewrite call_sent. destruct (NewRequest_error _ _).
  - exists []. rewrite app_nil_r. repeat split; [simpl; lia|constructor].
  - exists [build_request c endpoint method request]. simpl.
    repeat split; [lia|]. constructor; [by exists endpoint|constructor].
Qed.

Lemma Groups_loop_sent_shape c fuel : ∀ w nextLink response w' groups err,
  Groups_loop fuel c w nextLink response = Some (w', groups, err) →
  ∃ new, sent w' = sent w ++ new ∧
         Forall (λ r, ∃ e, r = build_request c e "GET" NilRequest) new.
Proof.
  induction fuel as [|fuel IH]; intros w nextLink response w' groups err;
    [done|].
  simpl. unfold Groups_body.
  destruct (call_sent_shape c w nextLink "GET" NilRequest ([] : list Group))
    as (new & Hnew & _ & _ & Hall).
  destruct (call c w nextLink "GET" NilRequest []) as [[[w1 resp] e] link].
  simpl in Hnew. destruct e.
  { intros [= <- <- <-]. by exists new. }
  case_decide.
  { intros [= <- <- <-]. by exists new. }
  intros (new' & Hnew' & Hall')%IH. simpl in Hnew'.
  exists (new ++ new'). rewrite Hnew', Hnew, app_assoc.
  split; [done|]. by apply Forall_app.
Qed.

(** X9. Every request an operation sends has the method and the body of
    that operation (POST with the marshalled credentials or token for
    [Authenticate] and [Session], GET with the marshalled [nil] for the
    others), a URL that starts with [https://{org}.{Url}/api/v1/], and the
    headers of the client; and only [Groups] sends more than one. *)
Theorem run_request_shape fuel op c w c' w' err :
  run fuel op c w = Some (c', w', err) →
  ∃ new,
    sent w' = sent w ++ new ∧
    Forall (λ r, Method r = op_method op ∧
                 Body r = json_Marshal (op_payload op) ∧
                 GoStrings.HasPrefix (URL r) (base_url c) = true ∧
                 Header r = request_headers c) new ∧
    ((∀ userID, op ≠ OpGroups userID) → (length new ≤ 1)%nat).
Proof.
  assert (∀ method request new,
    Forall (λ r, ∃ e, r = build_request c e method request) new →
    Forall (λ r, Method r = method ∧ Body r = json_Marshal request ∧
                 GoStrings.HasPrefix (URL r) (base_url c) = true ∧
                 Header r = request_headers c) new) as Hshape.
  { intros method request new Hall. eapply Forall_impl; [exact Hall|].
    intros r [e ->]. simpl. repeat split.
    unfold request_url, base_url.
    rewrite <-!StringFacts.app_assoc. apply HasPrefix_app_self. }
  destruct op as [u p|tok|uid|uid|uid app]; simpl.
  - unfold Authenticate.
    destruct (call_sent_shape c w "authn" "POST" (AuthnRequest u p)
                AuthnResponse_zero) as (new & Hnew & _ & Hlen & Hall).
    destruct (call c w "authn" "POST" _ _) as [[[w1 r] e] l].
    intros [= <- <- <-]. exists new. by auto.
  - unfold Session.
    destruct (call_sent_shape c w "sessions" "POST" (SessionRequest tok)
                SessionResponse_zero) as (new & Hnew & _ & Hlen & Hall).
    destruct (call c w "sessions" "POST" _ _) as [[[w1 r] e] l].
    intros [= <- <- <-]. exists new. by auto.
  - unfold User.
    destruct (call_sent_shape c w ("users/" +:+ uid) "GET" NilRequest
                UserProfile_zero) as (new & Hnew & _ & Hlen & Hall).
    destruct (call c w ("users/" +:+ uid) "GET" _ _) as [[[w1 r] e] l].
    intros [= <- <- <-]. exists new. by auto.
  - unfold Groups.
    destruct (Groups_loop fuel c w _ []) as [[[w1 gs] e]|] eqn:Hloop; [|done].
    intros [= <- <- <-].
    apply Groups_loop_sent_shape in Hloop as (new & Hnew & Hall).
    exists new. split; [done|]. split; [by apply Hshape|].
    intros Hop. by destruct (Hop uid).
  - unfold AppLinks.
    destruct (call_sent_shape c w (AppLinks_endpoint uid app) "GET" NilRequest
                AppLinkList_zero) as (new & Hnew & _ & Hlen & Hall).
    destruct (call c w (AppLinks_endpoint uid app) "GET" _ _) as [[[w1 r] e] l].
    intros [= <- <- <-]. exists new. by auto.
Qed.

End CallExtras.

(** ** More about the single operations and the client's state *)

Section OperationExtras.
Context `{RT : Runtime}.
Implicit Types (c : Client) (w : World).

(** X10. When the provider answers the [authn] request with status 200 and
    a body that decodes, [Authenticate] returns the decoded payload
    without error, having sent one POST to [.../api/v1/authn] whose body
    is the marshalled username and password. *)
Theorem Authenticate_returns_payload c w username password resp body payload :
  let req := build_request c "authn" "POST" (AuthnRequest username password) in
  NewRequest_error "POST" (request_url c "authn") = None →
  Do (sent w) req = Ok resp →
  RespBody resp = Ok body →
  StatusCode resp = StatusOK →
  json_Unmarshal body AuthnResponse_zero = (payload, None) →
  Authenticate c w username password = (record_request w req, payload, None) ∧
  Method req = "POST" ∧
  URL req = "https://" +:+ org c +:+ "." +:+ Url c +:+ "/api/v1/authn" ∧
  Body req = json_Marshal (AuthnRequest username password).
Proof.
  intros req Hnew HDo Hbody Hst Hdec. split; [|done].
  unfold Authenticate.
  by rewrite (call_ok _ _ _ _ _ _ resp body payload).
Qed.

(** X11. Signing in and then asking for a user: after a successful
    [Session], the request [User] sends is a GET of
    [.../api/v1/users/{userID}] that carries the new session cookie, and
    when it is answered with status 200 and a body that decodes, [User]
    returns the decoded profile without error. *)
Theorem Session_then_User c w sessionToken c1 w1 session userID resp body profile :
  Session c w sessionToken = (c1, w1, session, None) →
  let req := build_request c1 ("users/" +:+ userID) "GET" NilRequest in
  NewRequest_error "GET" (request_url c1 ("users/" +:+ userID)) = None →
  Do (sent w1) req = Ok resp →
  RespBody resp = Ok body →
  StatusCode resp = StatusOK →
  json_Unmarshal body UserProfile_zero = (profile, None) →
  User c1 w1 userID = (record_request w1 req, profile, None) ∧
  Method req = "GET" ∧
  URL req = "https://" +:+ org c +:+ "." +:+ Url c +:+ "/api/v1/users/" +:+ userID ∧
  Header req !! "Cookie" = Some [Cookie_String (session_cookie c session)].
Proof.
  intros Hsession req Hnew HDo Hbody Hst Hdec.
  assert (c1 = {| org := org c; Url := Url c; ApiToken := ApiToken c;
                  SessionCookie := Some (session_cookie c session) |}) as Hc1.
  { unfold Session in Hsession.
    destruct (call c w "sessions" "POST" (SessionRequest sessionToken)
                SessionResponse_zero) as [[[w' r] e] l].
    by injection Hsession as <- <- <- ->. }
  split; [|split; [done|split]].
  - unfold User. by rewrite (call_ok _ _ _ _ _ _ resp body profile).
  - subst req c1. reflexivity.
  - subst req c1. simpl. by rewrite request_headers_Cookie.
Qed.

(** X12. A second successful [Session] replaces the cookie: the client
    then holds the cookie of the second session, and the request of that
    second [Session] itself still carried the cookie of the first. *)
Theorem Session_overwrites_cookie c w token1 token2 c1 w1 session1 c2 w2 session2 :
  Session c w token1 = (c1, w1, session1, None) →
  Session c1 w1 token2 = (c2, w2, session2, None) →
  SessionCookie c2 = Some (session_cookie c session2) ∧
  w2 = record_request w1 (build_request c1 "sessions" "POST" (SessionRequest token2)) ∧
  Header (build_request c1 "sessions" "POST" (SessionRequest token2)) !! "Cookie"
  = Some [Cookie_String (session_cookie c session1)].
Proof.
  unfold Session.
  destruct (call c w "sessions" "POST" (SessionRequest token1)
              SessionResponse_zero) as [[[w' r] e] l].
  intros [= <- <- <- ->].
  destruct (call _ w' "sessions" "POST" (SessionRequest token2)
              SessionResponse_zero) as [[[w'' r'] e'] l'] eqn:Hcall.
  intros [= <- <- <- ->].
  apply call_no_error in Hcall as (_ & -> & _).
  split; [done|]. split; [done|].
  simpl. by rewrite request_headers_Cookie.
Qed.

(** X13. A client fresh from [NewClient] talks to
    [https://{org}.okta.com/api/v1/] and its requests have the two JSON
    headers and nothing else: no [Authorization], no [Cookie]. *)
Theorem NewClient_plain_requests (org0 endpoint method : string)
    (request : RequestPayload) :
  let req := build_request (NewClient org0) endpoint method request in
  URL req = "https://" +:+ org0 +:+ ".okta.com/api/v1/" +:+ endpoint ∧
  dom (Header req) = ({[ "Accept"; "Content-Type" ]} : gset string) ∧
  Header req !! "Authorization" = None ∧
  Header req !! "Cookie" = None.
Proof.
  simpl. split; [done|].
  unfold request_headers, Header_Add. simpl.
  rewrite !dom_insert_L, dom_empty_L. split; [set_solver|].
  by simplify_map_eq.
Qed.

(** X14. The headers of a request are [Accept] and [Content-Type], with
    [Authorization] when the token is set and [Cookie] when a session
    cookie is stored, and no others; each has a single value. *)
Theorem request_headers_keys c (key : string) :
  (is_Some (request_headers c !! key) ↔
     key = "Accept" ∨ key = "Content-Type" ∨
     (key = "Authorization" ∧ ApiToken c ≠ "") ∨
     (key = "Cookie" ∧ SessionCookie c ≠ None)) ∧
  (∀ values, request_headers c !! key = Some values → length values = 1%nat).
Proof.
  destruct (decide (key = "Accept")) as [->|HA].
  { rewrite request_headers_Accept.
    split; [split; [by left|by eexists]|by intros ? [= <-]]. }
  destruct (decide (key = "Content-Type")) as [->|HT].
  { rewrite request_headers_Content_Type.
    split; [split; [by right; left|by eexists]|by intros ? [= <-]]. }
  destruct (decide (key = "Authorization")) as [->|HZ].
  { rewrite request_headers_Authorization. case_decide as Htok.
    - split; [|done]. split; [by intros []|].
      by intros [|[|[[]|[]]]].
    - split; [|by intros ? [= <-]].
      split; [by right; right; left|by eexists]. }
  destruct (decide (key = "Cookie")) as [->|HC].
  { rewrite request_headers_Cookie. destruct (SessionCookie c).
    - split; [|by intros ? [= <-]].
      split; [by right; right; right|by eexists].
    - split; [|done]. split; [by intros []|].
      by intros [|[|[[]|[]]]]. }
  assert (request_headers c !! key = None) as ->.
  { unfold request_headers, Header_Add.
    destruct (SessionCookie c); case_decide;
      by rewrite ?lookup_insert_ne, lookup_empty by done. }
  split; [|done]. split; [by intros []|].
  by intros [|[|[[]|[]]]].
Qed.

End OperationExtras.

(** ** More about [Groups] *)

Section GroupsExtras.
Context `{RT : Runtime}.
Implicit Types (c : Client) (w : World) (pages : list (list Group * string)).

Lemma follows_stdout c pages : ∀ w endpoint w' endpoint',
  follows c w endpoint pages w' endpoint' →
  stdout w' = stdout w ++ replicate (length pages) "go next link".
Proof.
  induction pages as [|[items link] pages IH]; intros w endpoint w' endpoint'.
  - intros [-> ->]. simpl. by rewrite app_nil_r.
  - intros (_ & _ & Hrest). rewrite (IH _ _ _ _ Hrest). simpl.
    by rewrite <-app_assoc.
Qed.

Lemma rewrite_link_empty c : rewrite_link c "" = "".
Proof.
  unfold rewrite_link. change (hd "" (GoStrings.Split "" ";")) with "".
  unfold GoStrings.Remove at 2. by case_decide.
Qed.

(** X15. When, after any chain of successful pages, a page comes with
    status 200 but a body that does not decode, [Groups] returns the
    decoder's error together with what the decoder left in the fresh
    slice of that pass, which is the empty list when the body is not a
    JSON document, and not the groups gathered before. *)
Theorem Groups_decode_error_returns_last_page c w userID pages w' endpoint'
    resp body partial msg :
  let first := "users/" +:+ userID +:+ "/groups?limit=200" in
  follows c w first pages w' endpoint' →
  NewRequest_error "GET" (request_url c endpoint') = None →
  Do (sent w') (groups_request c endpoint') = Ok resp →
  RespBody resp = Ok body →
  StatusCode resp = StatusOK →
  json_Unmarshal body ([] : list Group) = (partial, Some msg) →
  (∀ fuel, (length pages < fuel)%nat →
     Groups fuel c w userID
     = Some (record_request w' (groups_request c endpoint'), partial,
             Some (LibraryError msg))) ∧
  (json_Valid body = false → partial = []).
Proof.
  intros first Hfollows Hnew HDo Hbody Hst Hdec. split.
  - intros fuel Hfuel.
    replace fuel with (length pages + S (fuel - S (length pages)))%nat by lia.
    unfold Groups. fold first.
    rewrite (Groups_loop_follows _ _ _ _ _ _ _ _ Hfollows).
    cbn [Groups_loop]. unfold Groups_body.
    by rewrite (call_decode_fails c w' endpoint' "GET" NilRequest [] resp body
                  partial msg).
  - intros Hvalid.
    pose proof (json_Unmarshal_invalid body ([] : list Group) Hvalid) as Hsame.
    by rewrite Hdec in Hsame.
Qed.

(** X16. [Groups] prints the line [go next link] on standard output once
    for every page it follows a link from, so one line less than the
    number of pages, and nothing else. *)
Theorem Groups_prints_per_followed_page c w userID pages w' endpoint' items link :
  let first := "users/" +:+ userID +:+ "/groups?limit=200" in
  follows c w first pages w' endpoint' →
  page_at c w' endpoint' items link →
  rewrite_link c link = "" →
  ∀ fuel, (length pages < fuel)%nat →
    ∃ final groups,
      Groups fuel c w userID = Some (final, groups, None) ∧
      stdout final = stdout w ++ replicate (length pages) "go next link".
Proof.
  intros first Hfollows Hlast Hstop fuel Hfuel.
  replace fuel with (length pages + S (fuel - S (length pages)))%nat by lia.
  unfold Groups. fold first.
  rewrite (Groups_loop_follows _ _ _ _ _ _ _ _ Hfollows).
  cbn [Groups_loop].
  rewrite (Groups_body_page _ _ _ _ _ _ Hlast), decide_True by done.
  eexists _, _. split; [done|]. simpl.
  by apply (follows_stdout _ _ _ _ _ _ Hfollows).
Qed.

(** X17. A first page with status 200 whose [Link] header does not have
    exactly two values (none, only a self link, or more) ends the
    pagination: [Groups] returns the items of that page after this one
    request, with any fuel, and prints nothing. *)
Theorem Groups_single_page c w userID resp body items :
  let first := "users/" +:+ userID +:+ "/groups?limit=200" in
  NewRequest_error "GET" (request_url c first) = None →
  Do (sent w) (groups_request c first) = Ok resp →
  RespBody resp = Ok body →
  StatusCode resp = StatusOK →
  json_Unmarshal body ([] : list Group) = (items, None) →
  length (default [] (RespHeader resp !! "Link")) ≠ 2%nat →
  ∀ fuel, Groups (S fuel) c w userID
          = Some (record_request w (groups_request c first), items, None).
Proof.
  intros first Hnew HDo Hbody Hst Hdec Hlinks fuel.
  assert (next_link resp = "") as Hnone.
  { unfold next_link, Header_Values.
    destruct (RespHeader resp !! "Link") as [links|]; [|done].
    simpl in Hlinks. by rewrite decide_False. }
  unfold Groups. fold first. cbn [Groups_loop].
  rewrite (Groups_body_page c w first [] items (next_link resp)).
  - by rewrite Hnone, rewrite_link_empty, decide_True.
  - split; [done|]. by exists resp, body.
Qed.

End GroupsExtras.

(** ** The further properties on the stub provider *)

Section MoreWitnesses.
Import Stub StubMore.

Lemma rewrite_link_okta_round_trip_witness :
  rewrite_link acme link1 = "users/u/groups?after=g2&limit=200".
Proof.
  exact (proj1 (rewrite_link_okta_round_trip acme
                  "users/u/groups?after=g2&limit=200" "; rel=next"
                  eq_refl eq_refl eq_refl eq_refl (or_intror eq_refl))).
Defined.

Lemma rewrite_link_ignores_params_witness :
  rewrite_link acme ("<https://acme.okta.com/api/v1/users/u/groups>" +:+ "; rel=self")
  = rewrite_link acme "<https://acme.okta.com/api/v1/users/u/groups>".
Proof.
  exact (rewrite_link_ignores_params acme
           "<https://acme.okta.com/api/v1/users/u/groups>" " rel=self" eq_refl).
Defined.

Lemma AppLinks_endpoint_inj_witness :
  GoStrings.Remove "My>App" ">" = "MyApp".
Proof.
  apply (AppLinks_endpoint_inj "u" (GoStrings.Remove "My>App" ">") "MyApp").
  vm_compute. reflexivity.
Defined.

Lemma call_failure_contract_witness :
  (@call refusing string object_dest acme w0 "users/u" "GET" NilRequest "").2 = "".
Proof.
  destruct (@call refusing string object_dest acme w0 "users/u" "GET" NilRequest "")
    as [[[w1 r1] [e|]] link] eqn:Hcall; [|vm_compute in Hcall; discriminate].
  exact (proj1 (call_failure_contract (RT := refusing) string object_dest acme w0
                  "users/u" "GET" NilRequest "" w1 r1 e link Hcall)).
Defined.

Lemma Error_names_url_and_code_witness :
  error_Error (RT := refusing)
    <$> (@call refusing string object_dest acme w0 "users/u" "GET" NilRequest "").1.2
  = Some "Error hitting api endpoint https://acme.okta.com/api/v1/users/u E0000004".
Proof.
  rewrite (Error_names_url_and_code (RT := refusing) string object_dest acme w0
             "users/u" "GET" NilRequest ""
             {| StatusCode := 401; RespHeader := ∅; RespBody := Ok body_E0000004 |}
             body_E0000004);
    [vm_compute; reflexivity|reflexivity..|vm_compute; discriminate].
Defined.

Lemma run_unbuildable_sends_nothing_witness :
  run (RT := paged_strict) 1 (OpUser (String "010" "00u1")) acme w0
  = Some (acme, w0, Some (LibraryError "net/url: invalid control character in URL")).
Proof.
  apply (run_unbuildable_sends_nothing (RT := paged_strict) 0
           (OpUser (String "010" "00u1")) acme w0
           "net/url: invalid control character in URL").
  vm_compute. reflexivity.
Defined.

Lemma run_request_shape_witness :
  match run (RT := paged) 5 (OpGroups "u") acme w0 with
  | Some (_, w', _) =>
      ∃ new, sent w' = sent w0 ++ new ∧
             Forall (λ r, Method r = "GET" ∧
                          Body r = "null" ∧
                          GoStrings.HasPrefix (URL r) "https://acme.okta.com/api/v1/" = true ∧
                          Header r = request_headers (RT := paged) acme) new
  | None => False
  end.
Proof.
  destruct (run (RT := paged) 5 (OpGroups "u") acme w0)
    as [[[c' w'] err]|] eqn:Hrun; [|vm_compute in Hrun; discriminate].
  destruct (run_request_shape (RT := paged) 5 (OpGroups "u") acme w0 c' w' err Hrun)
    as (new & Hnew & Hall & _).
  exists new. split; [exact Hnew|exact Hall].
Defined.

Lemma Authenticate_returns_payload_witness :
  Authenticate (RT := authn_ok) acme w0 "bob" "secret"
  = (record_request w0
       (build_request (RT := authn_ok) acme "authn" "POST" (AuthnRequest "bob" "secret")),
     "bob", None).
Proof.
  apply (Authenticate_returns_payload (RT := authn_ok) acme w0 "bob" "secret"
           {| StatusCode := 200; RespHeader := ∅; RespBody := Ok user_body |}
           user_body "bob");
    [reflexivity..|vm_compute; reflexivity].
Defined.

Lemma Session_then_User_witness :
  let s := Session (RT := login) acme w0 "tok123" in
  (User (RT := login) s.1.1.1 s.1.1.2 "00u1").1.2 = "bob" ∧
  Header (build_request (RT := login) s.1.1.1 "users/00u1" "GET" NilRequest) !! "Cookie"
  = Some ["sid=abc; Path=/; Domain=acme.okta.com; HttpOnly; Secure"].
Proof.
  intros s.
  destruct (Session_then_User (RT := login) acme w0 "tok123" s.1.1.1 s.1.1.2 "abc"
              "00u1"
              {| StatusCode := 200; RespHeader := ∅; RespBody := Ok user_body |}
              user_body "bob")
    as (Huser & _ & _ & Hcookie);
    [vm_compute; reflexivity|reflexivity|vm_compute; reflexivity
    |reflexivity|reflexivity|vm_compute; reflexivity|].
  split; [by rewrite Huser|exact Hcookie].
Defined.

Lemma Session_overwrites_cookie_witness :
  let s1 := Session (RT := relogin) acme w0 "tok1" in
  let s2 := Session (RT := relogin) s1.1.1.1 s1.1.1.2 "tok2" in
  SessionCookie s2.1.1.1
  = Some {| Name := "sid"; Value := "xyz"; Path := "/";
            Domain := "acme.okta.com"; Secure := true; HttpOnly := true |}.
Proof.
  intros s1 s2.
  exact (proj1 (Session_overwrites_cookie (RT := relogin) acme w0 "tok1" "tok2"
                  s1.1.1.1 s1.1.1.2 "abc" s2.1.1.1 s2.1.1.2 "xyz"
                  ltac:(vm_compute; reflexivity) ltac:(vm_compute; reflexivity))).
Defined.

Lemma Groups_decode_error_returns_last_page_witness :
  ∃ final,
    Groups (RT := garbled) 2 acme w0 "u"
    = Some (final, [],
            Some (LibraryError "invalid character 'o' looking for beginning of value")).
Proof.
  eexists.
  apply (proj1 (Groups_decode_error_returns_last_page (RT := garbled) acme w0 "u"
                  [(["g1"; "g2"], link1)]
                  (next_world (RT := garbled) acme w0 "users/u/groups?limit=200")
                  (rewrite_link acme link1)
                  {| StatusCode := 200; RespHeader := ∅; RespBody := Ok "oops" |}
                  "oops" [] "invalid character 'o' looking for beginning of value"
                  ltac:(simpl; repeat split; try (vm_compute; discriminate);
                        eexists _, _; repeat split; vm_compute; reflexivity)
                  eq_refl ltac:(vm_compute; reflexivity) eq_refl eq_refl
                  ltac:(vm_compute; reflexivity))).
  simpl. lia.
Defined.

Lemma Groups_prints_per_followed_page_witness :
  ∃ final groups,
    Groups (RT := paged) 3 acme w0 "u" = Some (final, groups, None) ∧
    stdout final = ["go next link"; "go next link"].
Proof.
  apply (Groups_prints_per_followed_page (RT := paged) acme w0 "u"
           [(["g1"; "g2"], link1); (["g3"], link2)]
           (next_world (RT := paged) acme
              (next_world (RT := paged) acme w0 "users/u/groups?limit=200")
              (rewrite_link acme link1))
           (rewrite_link acme link2) ["g4"; "g5"] "").
  - simpl. repeat split; try (vm_compute; discriminate).
    + eexists _, _. repeat split; vm_compute; reflexivity.
    + eexists _, _. repeat split; vm_compute; reflexivity.
  - split; [reflexivity|].
    eexists _, _. repeat split; vm_compute; reflexivity.
  - vm_compute. reflexivity.
  - simpl. lia.
Defined.

Lemma Groups_single_page_witness :
  Groups (RT := single) 1 acme w0 "u"
  = Some (record_request w0
            (groups_request (RT := single) acme "users/u/groups?limit=200"),
          ["g1"; "g2"], None).
Proof.
  apply (Groups_single_page (RT := single) acme w0 "u"
           {| StatusCode := 200;
              RespHeader := {[ "Link" := [self_link] ]};
              RespBody := Ok ("[" +:+ q +:+ "g1" +:+ q +:+ "," +:+ q +:+ "g2" +:+ q +:+ "]") |}
           ("[" +:+ q +:+ "g1" +:+ q +:+ "," +:+ q +:+ "g2" +:+ q +:+ "]")
           ["g1"; "g2"]);
    [reflexivity|vm_compute; reflexivity|reflexivity|reflexivity
    |vm_compute; reflexivity|vm_compute; discriminate].
Defined.

Lemma QueryEscape_unreserved_witness :
  AppLinks_endpoint "00u1" "My-App_2.0~beta"
  = "users/00u1/appLinks?filter=appName+eq+%22My-App_2.0~beta%22".
Proof.
  apply (QueryEscape_unreserved "00u1" "My-App_2.0~beta"); [discriminate|].
  intros b Hb. vm_compute in Hb.
  repeat match type of Hb with
         | (if ?d then _ else _) = true => destruct d as [<-|]; [reflexivity|]
         end.
  discriminate.
Defined.

End MoreWitnesses.

(** ** [Groups] follows the links, [AppLinks] and the query of its URL *)

Section FollowFacts.
Context `{RT : Runtime}.

Lemma page_endpoints_lookup (c : Client) (pages : list (list Group * string)) :
  ∀ first (i : nat) items link,
    pages !! i = Some (items, link) →
    page_endpoints c first pages !! S i = Some (rewrite_link c link).
Proof.
  induction pages as [|[items0 link0] pages IH]; intros first i items link;
    [done|].
  destruct i as [|i].
  - intros [= -> ->]. simpl. by destruct pages as [|[]].
  - intros Hi. simpl in Hi. cbn [page_endpoints].
    change ((first :: page_endpoints c (rewrite_link c link0) pages) !! S (S i))
      with (page_endpoints c (rewrite_link c link0) pages !! S i).
    by apply (IH _ _ items).
Qed.

End FollowFacts.

Section QueryStringFacts.
Import GoStrings StringFacts GoURLParse.




End QueryStringFacts.

Section FollowClaims.
Context `{RT : Runtime}.
Implicit Types (c : Client) (w : World) (pages : list (list Group * string)).
Import GoStrings GoURLParse.

(** C1. For every user id and every finite chain of successful pages
    (the pages of [pages], each offering a next page, then a last page
    whose link rewrites to the empty string), [Groups] starts at
    [users/{userID}/groups?limit=200], sends exactly one request per
    page and returns without error the items of all pages concatenated
    in visiting order.  The request after a page goes to the endpoint cut
    out of that page's link: the text before the first [;], without the
    prefix [<https://{org}.okta.com/api/v1/] and without [>].  So, for a
    client on [okta.com], a link [<https://{org}.okta.com/api/v1/{rest}>]
    (followed or not by parameters after a [;]) sends the next request
    to the URL between the angle brackets. *)
Theorem Groups_concatenates_pages c w userID pages w' endpoint' items link :
  let first := "users/" +:+ userID +:+ "/groups?limit=200" in
  let final := record_request w' (groups_request c endpoint') in
  follows c w first pages w' endpoint' →
  page_at c w' endpoint' items link →
  rewrite_link c link = "" →
  (∀ fuel, (length pages < fuel)%nat →
     Groups fuel c w userID
     = Some (final, concat (map fst (pages ++ [(items, link)])), None)) ∧
  sent final = sent w ++ map (groups_request c) (page_endpoints c first pages) ∧
  sent final !! length (sent w) = Some (groups_request c first) ∧
  length (sent final) = (length (sent w) + length (pages ++ [(items, link)]))%nat ∧
  (∀ (i : nat) items_i link_i,
     pages !! i = Some (items_i, link_i) →
     sent final !! (length (sent w) + S i)%nat
     = Some (groups_request c
               (Remove (Remove (hd "" (Split link_i ";"))
                               ("<https://" +:+ org c +:+ ".okta.com/api/v1/"))
                       ">"))) ∧
  (∀ (i : nat) items_i rest params,
     pages !! i
     = Some (items_i,
             "<https://" +:+ org c +:+ ".okta.com/api/v1/" +:+ rest +:+ ">" +:+ params) →
     Url c = "okta.com" →
     contains_byte ";" (org c +:+ rest) = false →
     contains_byte "<" rest = false →
     contains_byte ">" rest = false →
     params = "" ∨ HasPrefix params ";" = true →
     URL <$> sent final !! (length (sent w) + S i)%nat
     = Some ("https://" +:+ org c +:+ ".okta.com/api/v1/" +:+ rest)).
Proof.
  intros first final Hfollows Hlast Hstop.
  pose proof (follows_sent _ _ _ _ _ _ Hfollows) as Hsent.
  assert (sent final
          = sent w ++ map (groups_request c) (page_endpoints c first pages))
    as Hfinal by done.
  assert (∀ (i : nat) items_i link_i,
            pages !! i = Some (items_i, link_i) →
            sent final !! (length (sent w) + S i)%nat
            = Some (groups_request c (rewrite_link c link_i))) as Hnext.
  { intros i items_i link_i Hi.
    rewrite Hfinal, lookup_app_r by lia.
    replace (length (sent w) + S i - length (sent w))%nat with (S i) by lia.
    by rewrite list_lookup_fmap, (page_endpoints_lookup c pages first i items_i link_i). }
  split; [|split; [done|split; [|split; [|split]]]].
  - intros fuel Hfuel.
    replace fuel with (length pages + S (fuel - S (length pages)))%nat by lia.
    unfold Groups. fold first.
    rewrite (Groups_loop_follows _ _ _ _ _ _ _ _ Hfollows).
    cbn [Groups_loop].
    rewrite (Groups_body_page _ _ _ _ _ _ Hlast), decide_True by done.
    rewrite map_app, concat_app. simpl. by rewrite app_nil_r.
  - rewrite Hfinal, lookup_app_r by lia.
    replace (length (sent w) - length (sent w))%nat with 0%nat by lia.
    by destruct pages as [|[]].
  - rewrite Hfinal, length_app, length_map, page_endpoints_length, length_app.
    simpl. lia.
  - apply Hnext.
  - intros i items_i rest params Hi HUrl Hsemi Hlt Hgt Hparams.
    rewrite (Hnext i items_i _ Hi).
    rewrite (provider_form_absolute c rest params HUrl).
    rewrite (rewrite_link_provider_form c rest params) by done.
    simpl. unfold request_url. by rewrite HUrl.
Qed.


End FollowClaims.


Section FollowWitnesses.
Import Stub StubMore.

Lemma Groups_concatenates_pages_witness :
  ∃ final,
    Groups (RT := by_url) 3 acme w0 "u"
    = Some (final, ["g1"; "g2"; "g3"; "g4"; "g5"], None) ∧
    map URL (sent final) = [url0; url1; url2].
Proof.
  pose (pages := [(["g1"; "g2"], link1); (["g3"], link2)]).
  pose (w1 := next_world (RT := by_url) acme w0 "users/u/groups?limit=200").
  pose (n1 := rewrite_link acme link1).
  pose (w2 := next_world (RT := by_url) acme w1 n1).
  pose (n2 := rewrite_link acme link2).
  destruct (Groups_concatenates_pages (RT := by_url) acme w0 "u" pages w2 n2
              ["g4"; "g5"] "") as (Hrun & Hsent & _).
  - simpl. repeat split; try (vm_compute; discriminate).
    + eexists _, _. repeat split; vm_compute; reflexivity.
    + eexists _, _. repeat split; vm_compute; reflexivity.
  - split; [reflexivity|].
    eexists _, _. repeat split; vm_compute; reflexivity.
  - vm_compute. reflexivity.
  - eexists. split; [apply Hrun; simpl; lia|].
    rewrite Hsent. vm_compute. reflexivity.
Defined.


End FollowWitnesses.
